(** * SHOP.CO API (server.js): cart and credential handlers

    A shallow embedding of the Express route handlers of [server.js] and
    proofs of their specified behaviour.

    - Numbers.  The numeric fields the handlers compute on ([id],
      [quantity]) are JavaScript numbers holding integers; an integer is a
      [Z], and the two other values a handler can produce, [NaN] and an
      infinity, are constructors of [num].  A computed integer is rounded to
      the nearest double ([round_double]): it is itself up to 2^53 in
      magnitude, and an infinity from 2^1024 on.
    - Documents.  The two Mongoose collections are the persistent state
      [Db].  A document in hand ([Doc]) carries what Mongoose keeps with it:
      whether it was constructed by the handler or loaded, and the errors
      its assignments recorded (a [Number] path refuses [NaN], a [String]
      path refuses an object).  [findOne] and [save] are awaited promises
      that may reject; a rejection is caught by the handler's [try]/[catch]
      and answered with status 500.  [save] rejects when the document in
      hand has recorded an error or misses a required path; besides, the
      environment [Env] can make either call reject (a lost connection), and
      then says with which message.
    - Requests.  A request body is JSON.  The fields are modelled with the
      types the schemas declare (strings, integers, absent fields as
      [None]), and besides: an [id] sent as the string that spells an
      integer, and a credential sent as the query operator object
      [{ "$ne": "" }]. *)

From Stdlib Require Import ZArith QArith_base String Ascii List Lia.
From stdpp Require Import base option list strings pretty.

Local Open Scope string_scope.
Local Open Scope Z_scope.

(** ** JavaScript values used by the handlers *)

(** A number that is an integer, or [NaN], or an infinity. *)
Inductive num : Type :=
| Int (z : Z)
| NaN
| Infinity (negative : bool).

#[global] Instance num_eq_dec : EqDecision num.
Proof. solve_decision. Defined.

(** The double nearest to an integer, ties to the even significand: with 53
    bits of significand every integer up to 2^53 in magnitude is a double;
    beyond, the low bits are rounded away; from 2^1024 on the result is an
    infinity. *)
Definition round_double (z : Z) : num :=
  let a := Z.abs z in
  if a <? 2 ^ 53 then Int z
  else
    let e := Z.log2 a - 52 in
    let q := a / 2 ^ e in
    let r := a mod 2 ^ e in
    let half := 2 ^ (e - 1) in
    let q' := if orb (half <? r) (andb (r =? half) (Z.odd q)) then q + 1
              else q in
    let m := q' * 2 ^ e in
    if 2 ^ 1024 <=? m then Infinity (z <? 0) else Int (Z.sgn z * m).

(** [a === b] on two optional integers ([undefined === undefined] holds). *)
Definition strict_eq_Z (a b : option Z) : bool := bool_decide (a = b).

(** [a === b] on two optional strings. *)
Definition strict_eq_string (a b : option string) : bool := bool_decide (a = b).

(** [a === n] where [a] is a stored number or [undefined] and [n] is a
    computed number: [NaN] is equal to nothing, [undefined] to no number. *)
Definition strict_eq_num (a : option Z) (n : num) : bool :=
  match a, n with
  | Some x, Int y => bool_decide (x = y)
  | _, _ => false
  end.

(** Truthiness of an optional number: [undefined], [0] and [NaN] are falsy. *)
Definition truthy (v : option num) : bool :=
  match v with
  | Some (Int z) => negb (Z.eqb z 0)
  | Some NaN => false
  | Some (Infinity _) => true
  | None => false
  end.

(** [v || 1] *)
Definition or_1 (v : option num) : num :=
  match v with
  | Some n => if truthy v then n else Int 1
  | None => Int 1
  end.

(** [a + b] where [a] may be [undefined]: the sum of two integers is rounded
    to a double, [undefined + b] is [NaN]. *)
Definition js_add (a : option num) (b : num) : num :=
  match a, b with
  | Some (Int x), Int y => round_double (x + y)
  | Some (Infinity s), Int _ => Infinity s
  | Some (Int _), Infinity s => Infinity s
  | Some (Infinity s), Infinity s' => if Bool.eqb s s' then Infinity s else NaN
  | _, _ => NaN
  end.

(** [Math.max(1, q)]: [NaN] if [q] is [undefined] or [NaN]. *)
Definition Math_max_1 (q : option num) : num :=
  match q with
  | Some (Int z) => Int (Z.max 1 z)
  | Some (Infinity false) => Infinity false
  | Some (Infinity true) => Int 1
  | Some NaN | None => NaN
  end.

(** ** [parseInt(s)] with no radix argument

    White space is skipped, then an optional sign, then [0x] or [0X] selects
    radix 16 (radix 10 otherwise), and the longest run of digits is read;
    with no digit the result is [NaN], else the integer read, as a double. *)

(** [parseInt] first skips white space and line terminators.  A string is
    the sequence of its UTF-8 bytes: the one-byte characters are TAB, LF, VT,
    FF, CR and SP; U+00A0 takes two bytes, and U+1680, U+2000 to U+200A,
    U+2028, U+2029, U+202F, U+205F, U+3000 and U+FEFF take three. *)
Definition is_white_space1 (c : ascii) : bool :=
  let n := nat_of_ascii c in
  orb (Nat.eqb n 32) (andb (Nat.leb 9 n) (Nat.leb n 13)).

Definition is_white_space2 (c1 c2 : ascii) : bool :=
  andb (Nat.eqb (nat_of_ascii c1) 194) (Nat.eqb (nat_of_ascii c2) 160).

Definition is_white_space3 (c1 c2 c3 : ascii) : bool :=
  let '(a, b, c) := (nat_of_ascii c1, nat_of_ascii c2, nat_of_ascii c3) in
  match a, b with
  | 225, 154 => Nat.eqb c 128
  | 226, 128 =>
      orb (andb (Nat.leb 128 c) (Nat.leb c 138))
        (orb (Nat.eqb c 168) (orb (Nat.eqb c 169) (Nat.eqb c 175)))
  | 226, 129 => Nat.eqb c 159
  | 227, 128 => Nat.eqb c 128
  | 239, 187 => Nat.eqb c 191
  | _, _ => false
  end%nat.

Fixpoint skip_white_space (s : string) : string :=
  match s with
  | String c1 s1 =>
      if is_white_space1 c1 then skip_white_space s1
      else
        match s1 with
        | String c2 s2 =>
            if is_white_space2 c1 c2 then skip_white_space s2
            else
              match s2 with
              | String c3 s3 =>
                  if is_white_space3 c1 c2 c3 then skip_white_space s3 else s
              | EmptyString => s
              end
        | EmptyString => s
        end
  | EmptyString => s
  end.

(** Value of a digit in the given radix, if it is one. *)
Definition digit_value (radix : Z) (c : ascii) : option Z :=
  let n := Z.of_nat (nat_of_ascii c) in
  let v :=
    if andb (48 <=? n) (n <=? 57) then Some (n - 48)
    else if andb (97 <=? n) (n <=? 122) then Some (n - 87)
    else if andb (65 <=? n) (n <=? 90) then Some (n - 55)
    else None in
  match v with
  | Some d => if d <? radix then Some d else None
  | None => None
  end.

(** Reads the longest prefix of digits; [acc] is [None] until a digit is read. *)
Fixpoint read_digits (radix : Z) (s : string) (acc : option Z) : option Z :=
  match s with
  | String c s' =>
      match digit_value radix c with
      | Some d =>
          read_digits radix s'
            (Some (match acc with Some a => a * radix + d | None => d end))
      | None => acc
      end
  | EmptyString => acc
  end.

Definition strip_hex_prefix (s : string) : option string :=
  match s with
  | String "0" (String "x" s') => Some s'
  | String "0" (String "X" s') => Some s'
  | _ => None
  end.

Definition parseInt (s : string) : num :=
  let s := skip_white_space s in
  let '(sign, s) :=
    match s with
    | String "-" s' => (-1, s')
    | String "+" s' => (1, s')
    | _ => (1, s)
    end in
  let '(radix, s) :=
    match strip_hex_prefix s with
    | Some s' => (16, s')
    | None => (10, s)
    end in
  match read_digits radix s None with
  | Some v => round_double (sign * v)
  | None => NaN
  end.

(** ** [Array.prototype.findIndex] *)

Fixpoint findIndex_from {A : Type} (p : A → bool) (l : list A) (k : Z) : Z :=
  match l with
  | [] => -1
  | x :: l' => if p x then k else findIndex_from p l' (k + 1)
  end.

Definition findIndex {A : Type} (p : A → bool) (l : list A) : Z :=
  findIndex_from p l 0.

(** ** Schemas (server.js, lines 19-63) *)

Definition ObjectId : Type := string.

(** One element of [cartSchema.items]. *)
Module Item.
Record t : Type := mk {
  id : option Z;
  name : option string;
  size : option string;
  color : option string;
  price : option Q;
  quantity : option num;
  image : option string;
}.

(** [item.quantity = v] *)
Definition set_quantity (v : option num) (item : t) : t :=
  {| id := id item; name := name item; size := size item;
     color := color item; price := price item; quantity := v;
     image := image item |}.

(** The variant selectors compared by the add handler. *)
Definition triple (item : t) : option Z * option string * option string :=
  (id item, size item, color item).
End Item.

(** A document of the [Cart] model. *)
Module CartDoc.
Record t : Type := mk {
  userId : string;
  items : list Item.t;
  updatedAt : Z;
}.

Definition set_items (l : list Item.t) (cart : t) : t :=
  {| userId := userId cart; items := l; updatedAt := updatedAt cart |}.

Definition set_updatedAt (d : Z) (cart : t) : t :=
  {| userId := userId cart; items := items cart; updatedAt := d |}.
End CartDoc.

(** A document of the [User] model. *)
Module UserDoc.
Record t : Type := mk {
  _id : ObjectId;
  email : string;
  password : string;
  name : option string;
  createdAt : Z;
}.
End UserDoc.

(** ** Request bodies *)

(** The [id] field of the body of an add request: a JSON number, or the JSON
    string that is the decimal numeral of an integer, or no field. *)
Inductive body_id : Type :=
| IdNumber (z : Z)
| IdNumeral (z : Z)
| IdAbsent.

(** [req.body] of an add request, as [express.json()] parses it. *)
Module ItemBody.
Record t : Type := mk {
  id : body_id;
  name : option string;
  size : option string;
  color : option string;
  price : option Q;
  quantity : option num;
  image : option string;
}.

(** The body whose fields have the types of the schema. *)
Definition of_item (item : Item.t) : t :=
  {| id := match Item.id item with Some z => IdNumber z | None => IdAbsent end;
     name := Item.name item; size := Item.size item;
     color := Item.color item; price := Item.price item;
     quantity := Item.quantity item; image := Item.image item |}.

(** The subdocument the document layer makes of a body it is given as an
    element of [items]: each field is cast to the type of its path, so the
    numeral becomes the number it spells, and a [NaN] is not stored. *)
Definition cast (body : t) : Item.t :=
  {| Item.id := match id body with
                | IdNumber z | IdNumeral z => Some z
                | IdAbsent => None
                end;
     Item.name := name body; Item.size := size body;
     Item.color := color body; Item.price := price body;
     Item.quantity := match quantity body with
                      | Some NaN => None
                      | q => q
                      end;
     Item.image := image body |}.
End ItemBody.

(** The [email] or [password] field of the body of a register or login
    request: a JSON string, or the object [{ "$ne": "" }]. *)
Inductive credential : Type :=
| Str (s : string)
| NotEmpty.

(** Whether a stored string satisfies a credential used as the value of a
    query filter: a string asks for equality, [{ "$ne": "" }] for any string
    but the empty one. *)
Definition matches (c : credential) (stored : string) : bool :=
  match c with
  | Str s => bool_decide (stored = s)
  | NotEmpty => negb (bool_decide (stored = ""))
  end.

(** ** The database and the environment of one request *)

(** A collection is the sequence of its documents, in insertion order, which
    is the order [findOne] searches it in. *)
Record Db : Type := mkDb {
  carts : list CartDoc.t;
  users : list UserDoc.t;
}.

Definition empty_db : Db := {| carts := []; users := [] |}.

(** The cart document of a user, as a direct lookup in the store shows it:
    the first document whose [userId] is the given one. *)
Definition stored_cart (db : Db) (userId : string) : option CartDoc.t :=
  List.find (λ c, bool_decide (CartDoc.userId c = userId)) (carts db).

(** The update [save()] sends for a loaded cart: the document it was loaded
    from, the first with its [userId], is replaced. *)
Fixpoint replace (cart : CartDoc.t) (l : list CartDoc.t) : list CartDoc.t :=
  match l with
  | [] => []
  | c :: l' =>
      if bool_decide (CartDoc.userId c = CartDoc.userId cart)
      then cart :: l'
      else c :: replace cart l'
  end.

(** What a handler takes from outside during one request: the clock
    ([Date.now()]), the identifier a newly constructed document receives,
    and whether the awaited [findOne] and [save] reject whatever they are
    given (with which error message). *)
Record Env : Type := mkEnv {
  now : Z;
  new_ObjectId : ObjectId;
  findOne_rejects : option string;
  save_rejects : option string;
}.

(** An awaited computation over the database: it settles with a value, or
    rejects with an error message. *)
Definition M (A : Type) : Type := Db → (string + A) * Db.

#[global] Instance M_ret : MRet M := λ A (a : A) db, (inr a, db).

#[global] Instance M_bind : MBind M := λ A B (f : A → M B) (m : M A) db,
  match m db with
  | (inr a, db') => f a db'
  | (inl error, db') => (inl error, db')
  end.

(** ** Documents in hand *)

(** A document as a handler holds it: its fields, whether it was constructed
    by the handler ([new Cart], [new User]) or loaded by [findOne], and the
    errors recorded when a value was refused by the path it was given to
    (each with its path and its message). *)
Record Doc (A : Type) : Type := mkDoc {
  fields : A;
  isNew : bool;
  errors : list (string * string);
}.

Arguments mkDoc {A} _ _ _.
Arguments fields {A} _.
Arguments isNew {A} _.
Arguments errors {A} _.

Definition loaded {A : Type} (a : A) : Doc A :=
  {| fields := a; isNew := false; errors := [] |}.

Definition quoted (s : string) : string :=
  String (ascii_of_nat 34) (s +:+ String (ascii_of_nat 34) "").

(** The messages of the document layer. *)
Definition cast_Number_NaN : string :=
  "Cast to Number failed for value " +:+ quoted "NaN"
  +:+ " (type number) at path " +:+ quoted "quantity".

Definition cast_string_object (path : string) : string :=
  "Cast to string failed for value " +:+ quoted "{ '$ne': '' }"
  +:+ " (type Object) at path " +:+ quoted path.

Definition required (path : string) : string :=
  "Path `" +:+ path +:+ "` is required.".

Definition validation_failed (model : string)
    (errs : list (string * string)) : string :=
  model +:+ " validation failed: "
  +:+ String.concat ", " (List.map (λ err, err.1 +:+ ": " +:+ err.2) errs).

Module Cart.
(** The error an element of [items] records when it is given a [NaN]
    quantity. *)
Definition item_errors (index : nat) (body : ItemBody.t)
  : list (string * string) :=
  match ItemBody.quantity body with
  | Some NaN => [("items." +:+ pretty index +:+ ".quantity", cast_Number_NaN)]
  | _ => []
  end.

Fixpoint items_errors (index : nat) (bodies : list ItemBody.t)
  : list (string * string) :=
  match bodies with
  | [] => []
  | body :: bodies' =>
      (item_errors index body ++ items_errors (S index) bodies')%list
  end.

Definition items (cart : Doc CartDoc.t) : list Item.t :=
  CartDoc.items (fields cart).

(** [new Cart({ userId, items })]; [updatedAt] takes its default. *)
Definition new (e : Env) (userId : string) (bodies : list ItemBody.t)
  : Doc CartDoc.t :=
  {| fields := {| CartDoc.userId := userId;
                  CartDoc.items := ItemBody.cast <$> bodies;
                  CartDoc.updatedAt := now e |};
     isNew := true;
     errors := items_errors 0 bodies |}.

(** [cart.items.push(newItem)] *)
Definition push (newItem : ItemBody.t) (cart : Doc CartDoc.t)
  : Doc CartDoc.t :=
  {| fields := CartDoc.set_items (items cart ++ [ItemBody.cast newItem])
                 (fields cart);
     isNew := isNew cart;
     errors := (errors cart ++ item_errors (length (items cart)) newItem)%list
  |}.

(** [cart.items[i].quantity = f(cart.items[i].quantity)]: a [NaN] is refused
    by the path and recorded.  (The handlers take [i] from [findIndex], so
    the item is there.) *)
Definition assign_quantity (i : nat) (f : option num → num)
    (cart : Doc CartDoc.t) : Doc CartDoc.t :=
  match items cart !! i with
  | None => cart
  | Some item =>
      match f (Item.quantity item) with
      | NaN =>
          {| fields := fields cart; isNew := isNew cart;
             errors := (errors cart ++
                          [("items." +:+ pretty i +:+ ".quantity",
                            cast_Number_NaN)])%list |}
      | v =>
          {| fields := CartDoc.set_items
                         (<[i := Item.set_quantity (Some v) item]>
                            (items cart))
                         (fields cart);
             isNew := isNew cart; errors := errors cart |}
      end
  end.

(** [cart.items = l], for a sequence of subdocuments of the cart. *)
Definition set_items (l : list Item.t) (cart : Doc CartDoc.t)
  : Doc CartDoc.t :=
  {| fields := CartDoc.set_items l (fields cart);
     isNew := isNew cart; errors := errors cart |}.

(** [cart.updatedAt = d] *)
Definition set_updatedAt (d : Z) (cart : Doc CartDoc.t) : Doc CartDoc.t :=
  {| fields := CartDoc.set_updatedAt d (fields cart);
     isNew := isNew cart; errors := errors cart |}.

(** [await Cart.findOne({ userId })] *)
Definition findOne (e : Env) (userId : string) : M (option (Doc CartDoc.t)) :=
  λ db,
    match findOne_rejects e with
    | Some error => (inl error, db)
    | None => (inr (loaded <$> stored_cart db userId), db)
    end.

(** [await cart.save()]: a document with a recorded error is rejected; a
    constructed document is inserted, a loaded one is updated.  ([userId] is
    required, and is a route parameter, which is never empty.) *)
Definition save (e : Env) (cart : Doc CartDoc.t) : M unit :=
  λ db,
    match save_rejects e with
    | Some error => (inl error, db)
    | None =>
        match errors cart with
        | [] =>
            (inr (),
             {| carts := if isNew cart
                         then (carts db ++ [fields cart])%list
                         else replace (fields cart) (carts db);
                users := users db |})
        | errs => (inl (validation_failed "Cart" errs), db)
        end
    end.
End Cart.

Module User.
(** What a [String] path records when it is given a credential. *)
Definition cast_errors (path : string) (c : credential)
  : list (string * string) :=
  match c with
  | Str _ => []
  | NotEmpty => [(path, cast_string_object path)]
  end.

(** The string a [String] path holds after it was given a credential: a
    refused value leaves it unset. *)
Definition cast (c : credential) : string :=
  match c with
  | Str s => s
  | NotEmpty => ""
  end.

(** [new User({ email, password, name })]; [createdAt] takes its default. *)
Definition new (e : Env) (email password : credential) (name : option string)
  : Doc UserDoc.t :=
  {| fields := {| UserDoc._id := new_ObjectId e;
                  UserDoc.email := cast email;
                  UserDoc.password := cast password;
                  UserDoc.name := name;
                  UserDoc.createdAt := now e |};
     isNew := true;
     errors := (cast_errors "email" email
                ++ cast_errors "password" password)%list |}.

(** The [required: true] of a [String] path: an unset or empty string fails
    it, unless the path has recorded an error already. *)
Definition required_errors (path value : string)
    (errs : list (string * string)) : list (string * string) :=
  if bool_decide (path ∈ errs.*1) then []
  else if bool_decide (value = "") then [(path, required path)]
  else [].

(** [await User.findOne(filter)]: the first document the filter accepts. *)
Definition findOne (e : Env) (filter : UserDoc.t → bool)
  : M (option (Doc UserDoc.t)) :=
  λ db,
    match findOne_rejects e with
    | Some error => (inl error, db)
    | None => (inr (loaded <$> List.find filter (users db)), db)
    end.

(** [await user.save()] of a newly constructed document. *)
Definition save (e : Env) (user : Doc UserDoc.t) : M unit :=
  λ db,
    match save_rejects e with
    | Some error => (inl error, db)
    | None =>
        match (errors user
               ++ required_errors "email" (UserDoc.email (fields user))
                    (errors user)
               ++ required_errors "password" (UserDoc.password (fields user))
                    (errors user))%list with
        | [] =>
            (inr (),
             {| carts := carts db;
                users := (users db ++ [fields user])%list |})
        | errs => (inl (validation_failed "User" errs), db)
        end
    end.
End User.

(** ** Responses *)

(** The [user] object of a login response. *)
Record LoginUser : Type := mkLoginUser {
  login_id : ObjectId;
  login_email : string;
  login_name : option string;
}.

(** The JSON bodies the handlers send. *)
Inductive Body : Type :=
| CartBody (message : option string) (cart : list Item.t)
    (** [{ success: true, message, cart }] *)
| FailBody (message : string) (error : option string)
    (** [{ success: false, message, error }] *)
| RegisteredBody (message : string) (userId : ObjectId)
    (** [{ success: true, message, userId }] *)
| LoggedInBody (message : string) (user : LoginUser).
    (** [{ success: true, message, user: { id, email, name } }] *)

Record Response : Type := mkResponse {
  status : Z;
  body : Body;
}.

(** [res.json(b)] *)
Definition json (b : Body) : Response := {| status := 200; body := b |}.

(** [res.status(s).json(b)] *)
Definition status_json (s : Z) (b : Body) : Response :=
  {| status := s; body := b |}.

Definition Handler : Type := Db → Response * Db.

(** [try { ... } catch (error) { ... error.message ... }] *)
Definition try_catch (block : M Response) (handler : string → Response)
  : Handler :=
  λ db,
    match block db with
    | (inr r, db') => (r, db')
    | (inl error, db') => (handler error, db')
    end.

(** ** Cart routes (server.js, lines 74-251) *)

(** [item.id === newItem.id] (line 113): the stored number against the
    field of the body, which is equal to it only if it is that number; a
    string is not, whatever it spells. *)
Definition strict_eq_id (a : option Z) (b : body_id) : bool :=
  match a, b with
  | Some x, IdNumber y => bool_decide (x = y)
  | None, IdAbsent => true
  | _, _ => false
  end.

(** The predicate of the add handler's [findIndex] (lines 112-115). *)
Definition same_variant (newItem : ItemBody.t) (item : Item.t) : bool :=
  strict_eq_id (Item.id item) (ItemBody.id newItem)
  && strict_eq_string (Item.size item) (ItemBody.size newItem)
  && strict_eq_string (Item.color item) (ItemBody.color newItem).

(** The predicate of the update handler's [findIndex] (line 160); the remove
    handler's [filter] keeps the items that fail it (line 203). *)
Definition has_id (itemId : string) (item : Item.t) : bool :=
  strict_eq_num (Item.id item) (parseInt itemId).

(** [GET /api/cart/:userId] *)
Definition getCart (e : Env) (userId : string) : Handler :=
  try_catch
    (cart ← Cart.findOne e userId;
     cart ← match cart with
            | Some cart => mret cart
            | None =>
                let cart := Cart.new e userId [] in
                Cart.save e cart;; mret cart
            end;
     mret (json (CartBody None (Cart.items cart))))
    (λ error,
       status_json 500 (FailBody "Error fetching cart" (Some error))).

(** [POST /api/cart/:userId/add], with [newItem = req.body] *)
Definition addItem_body (e : Env) (userId : string) (newItem : ItemBody.t)
  : Handler :=
  try_catch
    (cart ← Cart.findOne e userId;
     let cart :=
       match cart with
       | None => Cart.new e userId [newItem]
       | Some cart =>
           let existingItemIndex :=
             findIndex (same_variant newItem) (Cart.items cart) in
           if -1 <? existingItemIndex then
             Cart.assign_quantity (Z.to_nat existingItemIndex)
               (λ quantity,
                  js_add quantity (or_1 (ItemBody.quantity newItem)))
               cart
           else
             Cart.push newItem cart
       end in
     let cart := Cart.set_updatedAt (now e) cart in
     Cart.save e cart;;
     mret (json (CartBody (Some "Item added to cart") (Cart.items cart))))
    (λ error,
       status_json 500 (FailBody "Error adding item to cart" (Some error))).

(** The add handler on a body whose fields have the types of the schema. *)
Definition addItem (e : Env) (userId : string) (newItem : Item.t) : Handler :=
  addItem_body e userId (ItemBody.of_item newItem).

(** [PUT /api/cart/:userId/update/:itemId], with [{ quantity } = req.body] *)
Definition updateQuantity (e : Env) (userId itemId : string)
    (quantity : option num) : Handler :=
  try_catch
    (cart ← Cart.findOne e userId;
     match cart with
     | None => mret (status_json 404 (FailBody "Cart not found" None))
     | Some cart =>
         let itemIndex := findIndex (has_id itemId) (Cart.items cart) in
         if itemIndex =? -1 then
           mret (status_json 404 (FailBody "Item not found in cart" None))
         else
           let cart :=
             Cart.assign_quantity (Z.to_nat itemIndex)
               (λ _, Math_max_1 quantity) cart in
           let cart := Cart.set_updatedAt (now e) cart in
           Cart.save e cart;;
           mret (json (CartBody (Some "Quantity updated") (Cart.items cart)))
     end)
    (λ error,
       status_json 500 (FailBody "Error updating quantity" (Some error))).

(** [DELETE /api/cart/:userId/remove/:itemId] *)
Definition removeItem (e : Env) (userId itemId : string) : Handler :=
  try_catch
    (cart ← Cart.findOne e userId;
     match cart with
     | None => mret (status_json 404 (FailBody "Cart not found" None))
     | Some cart =>
         let cart :=
           Cart.set_items
             (List.filter (λ item, negb (has_id itemId item))
                (Cart.items cart))
             cart in
         let cart := Cart.set_updatedAt (now e) cart in
         Cart.save e cart;;
         mret (json (CartBody (Some "Item removed from cart")
                       (Cart.items cart)))
     end)
    (λ error,
       status_json 500 (FailBody "Error removing item" (Some error))).

(** [DELETE /api/cart/:userId/clear] *)
Definition clearCart (e : Env) (userId : string) : Handler :=
  try_catch
    (cart ← Cart.findOne e userId;
     match cart with
     | None => mret (status_json 404 (FailBody "Cart not found" None))
     | Some cart =>
         let cart := Cart.set_items [] cart in
         let cart := Cart.set_updatedAt (now e) cart in
         Cart.save e cart;;
         mret (json (CartBody (Some "Cart cleared") (Cart.items cart)))
     end)
    (λ error,
       status_json 500 (FailBody "Error clearing cart" (Some error))).

(** ** User routes (server.js, lines 253-317) *)

(** [POST /api/auth/register], with [{ email, password, name } = req.body] *)
Definition register_body (e : Env) (email password : credential)
    (name : option string) : Handler :=
  try_catch
    (existingUser ←
       User.findOne e (λ u, matches email (UserDoc.email u));
     match existingUser with
     | Some _ => mret (status_json 400 (FailBody "User already exists" None))
     | None =>
         let user := User.new e email password name in
         User.save e user;;
         mret (json (RegisteredBody "User registered successfully"
                       (UserDoc._id (fields user))))
     end)
    (λ error,
       status_json 500 (FailBody "Error registering user" (Some error))).

(** The register handler on a body whose email and password are strings. *)
Definition register (e : Env) (email password : string) (name : option string)
  : Handler :=
  register_body e (Str email) (Str password) name.

(** [POST /api/auth/login], with [{ email, password } = req.body] *)
Definition login_body (e : Env) (email password : credential) : Handler :=
  try_catch
    (user ←
       User.findOne e
         (λ u, matches email (UserDoc.email u)
               && matches password (UserDoc.password u));
     match user with
     | None => mret (status_json 401 (FailBody "Invalid credentials" None))
     | Some user =>
         mret (json (LoggedInBody "Login successful"
                       {| login_id := UserDoc._id (fields user);
                          login_email := UserDoc.email (fields user);
                          login_name := UserDoc.name (fields user) |}))
     end)
    (λ error, status_json 500 (FailBody "Error logging in" (Some error))).

(** The login handler on a body whose email and password are strings. *)
Definition login (e : Env) (email password : string) : Handler :=
  login_body e (Str email) (Str password).

(** ** Requests as a transition system *)

(** The requests whose bodies have the types of the schemas. *)
Inductive Request : Type :=
| GetCart (userId : string)
| AddItem (userId : string) (item : Item.t)
| UpdateQuantity (userId itemId : string) (quantity : option num)
| RemoveItem (userId itemId : string)
| ClearCart (userId : string)
| Register (email password : string) (name : option string)
| Login (email password : string).

Definition handle (e : Env) (r : Request) : Handler :=
  match r with
  | GetCart userId => getCart e userId
  | AddItem userId item => addItem e userId item
  | UpdateQuantity userId itemId quantity =>
      updateQuantity e userId itemId quantity
  | RemoveItem userId itemId => removeItem e userId itemId
  | ClearCart userId => clearCart e userId
  | Register email password name => register e email password name
  | Login email password => login e email password
  end.

(** The databases the server can be in: it starts empty and serves requests
    one after the other, each in an environment of its own. *)
Inductive reachable : Db → Prop :=
| reachable_empty : reachable empty_db
| reachable_handle (e : Env) (r : Request) (db : Db) :
    reachable db → reachable (handle e r db).2.

(** An environment in which no store call rejects. *)
Definition ok_env (t : Z) (oid : ObjectId) : Env :=
  {| now := t; new_ObjectId := oid;
     findOne_rejects := None; save_rejects := None |}.

(** ** Notions used to state the properties *)

(** The last statements of the mutating cart handlers: stamp, save, answer
    with the items. *)
Definition save_and_answer (e : Env) (message error_message : string)
    (cart : Doc CartDoc.t) : Handler :=
  try_catch
    (Cart.save e (Cart.set_updatedAt (now e) cart);;
     mret (json (CartBody (Some message) (Cart.items cart))))
    (λ error, status_json 500 (FailBody error_message (Some error))).

(** A document in hand is placed in a store when it is new and the store
    has no cart of its user, or loaded and the store has one. *)
Definition placed (db : Db) (cart : Doc CartDoc.t) : Prop :=
  if isNew cart
  then stored_cart db (CartDoc.userId (fields cart)) = None
  else is_Some (stored_cart db (CartDoc.userId (fields cart))).

(** No two line items of the cart have the same (id, size, color). *)
Definition variants_unique (cart : CartDoc.t) : Prop :=
  NoDup (Item.triple <$> CartDoc.items cart).

(** An item's [id] is the integer the route parameter parses to. *)
Definition id_is (itemId : string) (item : Item.t) : Prop :=
  ∃ n : Z, parseInt itemId = Int n ∧ Item.id item = Some n.

#[global] Instance id_is_dec (itemId : string) (item : Item.t) :
  Decision (id_is itemId item).
Proof.
  unfold id_is.
  destruct (parseInt itemId) as [n| |b];
    [|right; intros (k & [=] & _)..].
  destruct (Item.id item) as [m|];
    [|right; intros (k & _ & [=])].
  destruct (decide (m = n)) as [->|Hne].
  - left. by exists n.
  - right. intros (k & [= <-] & [= ->]). by apply Hne.
Defined.

(** What [findIndex] returns: -1 when no element passes the test, else the
    index of the first element that does. *)
Inductive findIndex_spec {A : Type} (p : A → bool) (l : list A) : Z → Prop :=
| findIndex_none :
    Forall (λ x, p x = false) l → findIndex_spec p l (-1)
| findIndex_first (i : nat) (x : A) :
    l !! i = Some x →
    p x = true →
    (∀ (j : nat) (y : A), (j < i)%nat → l !! j = Some y → p y = false) →
    findIndex_spec p l (Z.of_nat i).

(** The user whose cart a request is about, if it is a cart request. *)
Definition cart_user (r : Request) : option string :=
  match r with
  | GetCart userId | AddItem userId _ | UpdateQuantity userId _ _
  | RemoveItem userId _ | ClearCart userId => Some userId
  | Register _ _ _ | Login _ _ => None
  end.

(** The [message] of the 500 response in the [catch] block of each route
    (lines 93, 138, 183, 215, 247, 281 and 313). *)
Definition catch_message (r : Request) : string :=
  match r with
  | GetCart _ => "Error fetching cart"
  | AddItem _ _ => "Error adding item to cart"
  | UpdateQuantity _ _ _ => "Error updating quantity"
  | RemoveItem _ _ => "Error removing item"
  | ClearCart _ => "Error clearing cart"
  | Register _ _ _ => "Error registering user"
  | Login _ _ => "Error logging in"
  end.

(** The status codes the handler of each route sends. *)
Definition statuses (r : Request) : list Z :=
  match r with
  | GetCart _ | AddItem _ _ => [200; 500]
  | UpdateQuantity _ _ _ | RemoveItem _ _ | ClearCart _ => [200; 404; 500]
  | Register _ _ _ => [200; 400; 500]
  | Login _ _ => [200; 401; 500]
  end.

(** Serving a sequence of requests, each in its environment, one after the
    other. *)
Definition serve (trace : list (Env * Request)) (db : Db) : Db :=
  foldl (λ db er, (handle er.1 er.2 db).2) db trace.

(** What one request does to the store: nothing, or the save of one cart
    document whose items it answers with (inserted for a user who had none,
    or written over the one the user had), or the save of one new
    account. *)
Inductive outcome (e : Env) (r : Request) (db : Db) : Response * Db → Prop :=
| outcome_no_write (resp : Response) :
    outcome e r db (resp, db)
| outcome_cart_saved (message : option string) (cart : Doc CartDoc.t) :
    cart_user r = Some (CartDoc.userId (fields cart)) →
    placed db cart →
    findOne_rejects e = None →
    save_rejects e = None →
    outcome e r db
      (json (CartBody message (Cart.items cart)),
       {| carts := if isNew cart
                   then (carts db ++ [fields cart])%list
                   else replace (fields cart) (carts db);
          users := users db |})
| outcome_user_saved (email password : string) (name : option string) :
    r = Register email password name →
    (∀ u : UserDoc.t, u ∈ users db → UserDoc.email u ≠ email) →
    findOne_rejects e = None →
    save_rejects e = None →
    outcome e r db
      (json (RegisteredBody "User registered successfully" (new_ObjectId e)),
       {| carts := carts db;
          users := (users db
                    ++ [fields (User.new e (Str email) (Str password) name)])%list
       |}).

(** Two line items that differ in their quantity at most. *)
Definition same_but_quantity (x y : Item.t) : Prop :=
  Item.set_quantity None x = Item.set_quantity None y.

(** The amount an add request asks for: the quantity of its body if that is
    an integer other than zero, and 1 if the body has no quantity or has the
    quantity zero or [NaN]. *)
Definition asks_for (quantity : option num) (k : Z) : Prop :=
  (quantity = Some (Int k) ∧ k ≠ 0) ∨
  (k = 1 ∧ (quantity = None ∨ quantity = Some (Int 0) ∨ quantity = Some NaN)).

(** The number of line items of a cart that have a given (id, size, color). *)
Definition count_variant (t : option Z * option string * option string)
    (l : list Item.t) : nat :=
  length (filter (λ item, Item.triple item = t) l).

(** * Properties *)

(** ** JavaScript values *)

Lemma round_double_safe (z : Z) : Z.abs z ≤ 2 ^ 53 → round_double z = Int z.
Proof.
  intros Hz. unfold round_double.
  destruct (Z.ltb_spec (Z.abs z) (2 ^ 53)) as [Hlt | Hge]; [done|].
  assert (Z.abs z = 2 ^ 53) as Habs by lia.
  destruct (Z.abs_eq_or_opp z) as [Heq | Heq]; rewrite Heq in Habs.
  - by subst z.
  - assert (z = - 2 ^ 53) as -> by lia. reflexivity.
Qed.

Lemma round_double_not_NaN (z : Z) : round_double z ≠ NaN.
Proof.
  unfold round_double. destruct (_ <? _); [done|].
  cbv zeta. by destruct (_ <=? _).
Qed.

Lemma has_id_true (itemId : string) (item : Item.t) :
  has_id itemId item = true ↔ id_is itemId item.
Proof.
  unfold has_id, id_is, strict_eq_num.
  destruct (Item.id item) as [x|], (parseInt itemId) as [y| |b]; split;
    try discriminate; try (intros (n & ? & ?); congruence).
  - intros H%bool_decide_eq_true. exists y. by subst.
  - intros (n & [= <-] & [= <-]). by apply bool_decide_eq_true.
Qed.

Lemma has_id_false (itemId : string) (item : Item.t) :
  has_id itemId item = false ↔ ¬ id_is itemId item.
Proof.
  rewrite <- has_id_true. destruct (has_id itemId item); split; congruence.
Qed.

Lemma has_id_NaN (itemId : string) (item : Item.t) :
  parseInt itemId = NaN → has_id itemId item = false.
Proof.
  intros H. unfold has_id. rewrite H. by destruct (Item.id item).
Qed.

Lemma cast_of_item (item : Item.t) :
  Item.quantity item ≠ Some NaN →
  ItemBody.cast (ItemBody.of_item item) = item.
Proof.
  intros Hq. destruct item as [id name size color price quantity image].
  unfold ItemBody.cast, ItemBody.of_item. simpl in *. f_equal.
  - by destruct id.
  - by destruct quantity as [[]|].
Qed.

Lemma triple_cast_of_item (item : Item.t) :
  Item.triple (ItemBody.cast (ItemBody.of_item item)) = Item.triple item.
Proof.
  unfold Item.triple, ItemBody.cast, ItemBody.of_item. simpl.
  by destruct (Item.id item).
Qed.

(** On a body with the types of the schema, the add handler's test is the
    equality of the (id, size, color). *)
Lemma same_variant_true (newItem item : Item.t) :
  same_variant (ItemBody.of_item newItem) item = true
  ↔ Item.triple item = Item.triple newItem.
Proof.
  unfold same_variant, strict_eq_id, strict_eq_string, Item.triple.
  simpl. rewrite !andb_true_iff, !bool_decide_eq_true.
  destruct (Item.id item) as [x|], (Item.id newItem) as [y|]; simpl;
    rewrite ?bool_decide_eq_true; split;
    try (intros [[? ->] ->]; congruence);
    try (intros [= -> ->]; done); try (intros [= ? -> ->]; by subst);
    try (intros [[[=] _] _]); try (intros [=]).
Qed.

Lemma same_variant_false (newItem item : Item.t) :
  same_variant (ItemBody.of_item newItem) item = false
  ↔ Item.triple item ≠ Item.triple newItem.
Proof.
  rewrite <- same_variant_true.
  destruct (same_variant _ item); split; congruence.
Qed.

Lemma triple_set_quantity (v : option num) (item : Item.t) :
  Item.triple (Item.set_quantity v item) = Item.triple item.
Proof. reflexivity. Qed.

(** What [or_1] gives for each incoming quantity. *)
Lemma or_1_asks_for (quantity : option num) (k : Z) :
  asks_for quantity k → or_1 quantity = Int k.
Proof.
  intros [[-> Hk] | [-> [-> | [-> | ->]]]]; try reflexivity.
  unfold or_1, truthy. by destruct (Z.eqb_spec k 0).
Qed.

Example parseInt_decimal : parseInt "42" = Int 42.
Proof. reflexivity. Qed.

Example parseInt_stops_at_non_digit :
  parseInt "  -42abc" = Int (-42) ∧ parseInt "12.5" = Int 12.
Proof. split; reflexivity. Qed.

Example parseInt_hex : parseInt "0x1F" = Int 31.
Proof. reflexivity. Qed.

Example parseInt_no_digit :
  parseInt "abc" = NaN ∧ parseInt "" = NaN ∧ parseInt "0x" = NaN.
Proof. repeat split; reflexivity. Qed.

Example parseInt_no_break_space :
  parseInt (String (ascii_of_nat 194) (String (ascii_of_nat 160) "7")) = Int 7.
Proof. reflexivity. Qed.

(** Above 2^53 the integer read is rounded to the nearest double. *)
Example parseInt_rounds :
  parseInt "9007199254740993" = Int 9007199254740992.
Proof. reflexivity. Qed.

(** ** [findIndex] *)

(** ** [findIndex] *)

Lemma findIndex_from_correct {A : Type} (p : A → bool) (l : list A) (k : Z) :
  (findIndex_from p l k = -1 ∧ Forall (λ x, p x = false) l) ∨
  (∃ (i : nat) (x : A),
      findIndex_from p l k = k + Z.of_nat i ∧ l !! i = Some x ∧ p x = true ∧
      ∀ (j : nat) (y : A), (j < i)%nat → l !! j = Some y → p y = false).
Proof.
  revert k. induction l as [|x l IH]; intros k; simpl.
  - left. split; [reflexivity | constructor].
  - destruct (p x) eqn:Hx.
    + right. exists 0%nat, x. repeat split; [lia | done | lia].
    + destruct (IH (k + 1)) as [[E Hall] | (i & y & E & Hi & Hy & Hlt)].
      * left. split; [exact E | by constructor].
      * right. exists (S i), y. repeat split; [lia | done | done |].
        intros [|j] z Hj Hz; simpl in Hz; [congruence|].
        apply (Hlt j z); [lia | done].
Qed.

Lemma findIndex_correct {A : Type} (p : A → bool) (l : list A) :
  findIndex_spec p l (findIndex p l).
Proof.
  unfold findIndex.
  destruct (findIndex_from_correct p l 0) as [[-> H] | (i & x & -> & H)].
  - by constructor.
  - destruct H as (Hi & Hx & Hlt). rewrite Z.add_0_l. by econstructor.
Qed.

(** When some element passes the test, [findIndex] finds the first one. *)
Lemma findIndex_found {A : Type} (p : A → bool) (l : list A) (x : A) :
  x ∈ l → p x = true →
  ∃ (i : nat) (y : A),
    findIndex p l = Z.of_nat i ∧ l !! i = Some y ∧ p y = true ∧
    ∀ (j : nat) (z : A), (j < i)%nat → l !! j = Some z → p z = false.
Proof.
  intros Hin Hx. destruct (findIndex_correct p l) as [Hall | i y Hi Hy Hlt].
  - rewrite Forall_forall in Hall. specialize (Hall x Hin). congruence.
  - by exists i, y.
Qed.

Lemma findIndex_absent {A : Type} (p : A → bool) (l : list A) :
  (∀ x, x ∈ l → p x = false) → findIndex p l = -1.
Proof.
  intros Hall. destruct (findIndex_correct p l) as [_ | i y Hi Hy _]; [done|].
  apply list_elem_of_lookup_2 in Hi. specialize (Hall y Hi). congruence.
Qed.

(** ** The store *)

Lemma stored_cart_userId (db : Db) (userId : string) (cart : CartDoc.t) :
  stored_cart db userId = Some cart → CartDoc.userId cart = userId.
Proof.
  unfold stored_cart. intros H. apply find_some in H as [_ H].
  by apply bool_decide_eq_true in H.
Qed.

Lemma stored_cart_elem (db : Db) (userId : string) (cart : CartDoc.t) :
  stored_cart db userId = Some cart → cart ∈ carts db.
Proof.
  unfold stored_cart. intros H. apply find_some in H as [H _].
  by apply list_elem_of_In.
Qed.

Lemma find_replace (userId : string) (cart : CartDoc.t) (l : list CartDoc.t) :
  is_Some (List.find (λ c, bool_decide (CartDoc.userId c = CartDoc.userId cart))
             l) →
  List.find (λ c, bool_decide (CartDoc.userId c = userId)) (replace cart l)
  = if bool_decide (CartDoc.userId cart = userId) then Some cart
    else List.find (λ c, bool_decide (CartDoc.userId c = userId)) l.
Proof.
  induction l as [|c l IH]; simpl; [by intros [? [=]]|].
  destruct (decide (CartDoc.userId c = CartDoc.userId cart)) as [Hc | Hc].
  - intros _. rewrite (bool_decide_eq_true_2 _ Hc). simpl. rewrite Hc.
    by case_bool_decide.
  - rewrite (bool_decide_eq_false_2 _ Hc). intros Hsome. simpl.
    rewrite (IH Hsome).
    case_bool_decide as Hu; [|done].
    rewrite bool_decide_eq_false_2; [done | congruence].
Qed.

Lemma find_insert (userId : string) (cart : CartDoc.t) (l : list CartDoc.t) :
  List.find (λ c, bool_decide (CartDoc.userId c = CartDoc.userId cart)) l
  = None →
  List.find (λ c, bool_decide (CartDoc.userId c = userId)) (l ++ [cart])
  = if bool_decide (CartDoc.userId cart = userId) then Some cart
    else List.find (λ c, bool_decide (CartDoc.userId c = userId)) l.
Proof.
  induction l as [|c l IH]; simpl; [done|].
  destruct (decide (CartDoc.userId c = CartDoc.userId cart)) as [Hc | Hc].
  - by rewrite (bool_decide_eq_true_2 _ Hc).
  - rewrite (bool_decide_eq_false_2 _ Hc). intros Hnone. rewrite (IH Hnone).
    case_bool_decide as Hu; [|done].
    rewrite bool_decide_eq_false_2; [done | congruence].
Qed.

(** After a save that did not reject, a lookup shows the saved document for
    its user, and what it showed before for every other user. *)
Lemma stored_cart_written (db : Db) (cart : Doc CartDoc.t)
    (us : list UserDoc.t) (userId : string) :
  placed db cart →
  stored_cart
    {| carts := if isNew cart
                then (carts db ++ [fields cart])%list
                else replace (fields cart) (carts db);
       users := us |} userId
  = if bool_decide (CartDoc.userId (fields cart) = userId)
    then Some (fields cart)
    else stored_cart db userId.
Proof.
  unfold placed, stored_cart. simpl. destruct (isNew cart); intros Hp.
  - by apply find_insert.
  - by apply find_replace.
Qed.

(** ** The handlers, run *)

(** Unfolds the awaited calls of a handler down to the store. *)
Ltac run_handler :=
  unfold getCart, addItem, addItem_body, updateQuantity, removeItem,
    clearCart, register, register_body, login, login_body, save_and_answer,
    try_catch, mbind, M_bind, mret, M_ret,
    Cart.findOne, Cart.save, User.findOne, User.save;
  simpl.

Lemma save_and_answer_run (e : Env) (message error_message : string)
    (cart : Doc CartDoc.t) (db : Db) :
  save_and_answer e message error_message cart db =
    match save_rejects e with
    | Some error =>
        (status_json 500 (FailBody error_message (Some error)), db)
    | None =>
        match errors cart with
        | [] =>
            (json (CartBody (Some message) (Cart.items cart)),
             {| carts :=
                  if isNew cart
                  then (carts db
                        ++ [CartDoc.set_updatedAt (now e) (fields cart)])%list
                  else replace (CartDoc.set_updatedAt (now e) (fields cart))
                         (carts db);
                users := users db |})
        | errs =>
            (status_json 500
               (FailBody error_message (Some (validation_failed "Cart" errs))),
             db)
        end
    end.
Proof.
  run_handler. destruct (save_rejects e); [done|].
  by destruct (errors cart).
Qed.

Lemma getCart_run (e : Env) (userId : string) (db : Db) :
  findOne_rejects e = None →
  getCart e userId db =
    match stored_cart db userId with
    | Some cart => (json (CartBody None (CartDoc.items cart)), db)
    | None =>
        match save_rejects e with
        | Some error =>
            (status_json 500 (FailBody "Error fetching cart" (Some error)), db)
        | None =>
            (json (CartBody None []),
             {| carts := (carts db ++ [fields (Cart.new e userId [])])%list;
                users := users db |})
        end
    end.
Proof.
  intros Hf. run_handler. rewrite Hf.
  destruct (stored_cart db userId); [done|]. simpl.
  by destruct (save_rejects e).
Qed.

Lemma addItem_body_run (e : Env) (userId : string) (newItem : ItemBody.t)
    (db : Db) :
  findOne_rejects e = None →
  addItem_body e userId newItem db =
    save_and_answer e "Item added to cart" "Error adding item to cart"
      match stored_cart db userId with
      | None => Cart.new e userId [newItem]
      | Some cart =>
          let i := findIndex (same_variant newItem) (CartDoc.items cart) in
          if -1 <? i then
            Cart.assign_quantity (Z.to_nat i)
              (λ quantity, js_add quantity (or_1 (ItemBody.quantity newItem)))
              (loaded cart)
          else Cart.push newItem (loaded cart)
      end
      db.
Proof.
  intros Hf. run_handler. rewrite Hf. simpl.
  by destruct (stored_cart db userId).
Qed.

Lemma addItem_run (e : Env) (userId : string) (newItem : Item.t) (db : Db) :
  findOne_rejects e = None →
  addItem e userId newItem db =
    save_and_answer e "Item added to cart" "Error adding item to cart"
      match stored_cart db userId with
      | None => Cart.new e userId [ItemBody.of_item newItem]
      | Some cart =>
          let i :=
            findIndex (same_variant (ItemBody.of_item newItem))
              (CartDoc.items cart) in
          if -1 <? i then
            Cart.assign_quantity (Z.to_nat i)
              (λ quantity, js_add quantity (or_1 (Item.quantity newItem)))
              (loaded cart)
          else Cart.push (ItemBody.of_item newItem) (loaded cart)
      end
      db.
Proof. intros Hf. unfold addItem. by rewrite addItem_body_run. Qed.

Lemma updateQuantity_run (e : Env) (userId itemId : string)
    (quantity : option num) (db : Db) :
  findOne_rejects e = None →
  updateQuantity e userId itemId quantity db =
    match stored_cart db userId with
    | None => (status_json 404 (FailBody "Cart not found" None), db)
    | Some cart =>
        let i := findIndex (has_id itemId) (CartDoc.items cart) in
        if i =? -1 then
          (status_json 404 (FailBody "Item not found in cart" None), db)
        else
          save_and_answer e "Quantity updated" "Error updating quantity"
            (Cart.assign_quantity (Z.to_nat i) (λ _, Math_max_1 quantity)
               (loaded cart))
            db
    end.
Proof.
  intros Hf. run_handler. rewrite Hf.
  destruct (stored_cart db userId) as [cart|]; [|done]. simpl.
  by destruct (_ =? -1).
Qed.

Lemma removeItem_run (e : Env) (userId itemId : string) (db : Db) :
  findOne_rejects e = None →
  removeItem e userId itemId db =
    match stored_cart db userId with
    | None => (status_json 404 (FailBody "Cart not found" None), db)
    | Some cart =>
        save_and_answer e "Item removed from cart" "Error removing item"
          (Cart.set_items
             (List.filter (λ item, negb (has_id itemId item))
                (CartDoc.items cart))
             (loaded cart))
          db
    end.
Proof.
  intros Hf. run_handler. rewrite Hf.
  by destruct (stored_cart db userId).
Qed.

Lemma clearCart_run (e : Env) (userId : string) (db : Db) :
  findOne_rejects e = None →
  clearCart e userId db =
    match stored_cart db userId with
    | None => (status_json 404 (FailBody "Cart not found" None), db)
    | Some cart =>
        save_and_answer e "Cart cleared" "Error clearing cart"
          (Cart.set_items [] (loaded cart)) db
    end.
Proof.
  intros Hf. run_handler. rewrite Hf.
  by destruct (stored_cart db userId).
Qed.

(** A handler whose [findOne] rejects answers 500 and writes nothing. *)
Lemma findOne_rejected (e : Env) (r : Request) (db : Db) (error : string) :
  findOne_rejects e = Some error →
  status (handle e r db).1 = 500 ∧ (handle e r db).2 = db.
Proof.
  intros Hf. destruct r; simpl; run_handler; by rewrite Hf.
Qed.

Lemma alter_insert {A : Type} (f : A → A) (l : list A) (i : nat) (x : A) :
  l !! i = Some x → alter f i l = <[i := f x]> l.
Proof.
  revert i. induction l as [|y l IH]; intros [|i] H; simpl in *;
    try discriminate.
  - by injection H as ->.
  - f_equal. by apply IH.
Qed.

Lemma save_and_answer_ok (e : Env) (message error_message : string)
    (cart : Doc CartDoc.t) (db : Db) :
  save_rejects e = None →
  errors cart = [] →
  placed db cart →
  (save_and_answer e message error_message cart db).1
    = json (CartBody (Some message) (Cart.items cart)) ∧
  stored_cart (save_and_answer e message error_message cart db).2
    (CartDoc.userId (fields cart))
    = Some {| CartDoc.userId := CartDoc.userId (fields cart);
              CartDoc.items := Cart.items cart;
              CartDoc.updatedAt := now e |}.
Proof.
  intros Hs He Hp. rewrite save_and_answer_run, Hs, He. simpl.
  split; [done|].
  pose proof (stored_cart_written db (Cart.set_updatedAt (now e) cart)
                (users db) (CartDoc.userId (fields cart)) Hp) as Hw.
  simpl in Hw. rewrite bool_decide_eq_true_2 in Hw by done. exact Hw.
Qed.

Lemma save_and_answer_status (e : Env) (message error_message : string)
    (cart : Doc CartDoc.t) (db : Db) :
  status (save_and_answer e message error_message cart db).1 ≠ 404.
Proof.
  rewrite save_and_answer_run. destruct (save_rejects e); [done|].
  by destruct (errors cart).
Qed.

(** A loaded document is placed in the store it was loaded from. *)
Lemma placed_loaded (db : Db) (userId : string) (cart : CartDoc.t)
    (d : Doc CartDoc.t) :
  stored_cart db userId = Some cart →
  isNew d = false →
  CartDoc.userId (fields d) = CartDoc.userId cart →
  placed db d.
Proof.
  intros Hcart Hnew Hu. unfold placed. rewrite Hnew, Hu.
  rewrite (stored_cart_userId _ _ _ Hcart). by eexists.
Qed.

(** Assigning a quantity by index: what the document in hand becomes. *)
Lemma assign_quantity_spec (i : nat) (f : option num → num)
    (cart : Doc CartDoc.t) (item : Item.t) :
  Cart.items cart !! i = Some item →
  let d := Cart.assign_quantity i f cart in
  isNew d = isNew cart ∧
  CartDoc.userId (fields d) = CartDoc.userId (fields cart) ∧
  (f (Item.quantity item) ≠ NaN →
   errors d = errors cart ∧
   Cart.items d
     = <[i := Item.set_quantity (Some (f (Item.quantity item))) item]>
         (Cart.items cart)) ∧
  (f (Item.quantity item) = NaN → errors d ≠ []).
Proof.
  intros Hi. unfold Cart.assign_quantity. rewrite Hi. cbv zeta.
  destruct (f (Item.quantity item)) as [z| |b]; simpl;
    repeat split; try done.
  intros _ Hnil. by apply app_eq_nil in Hnil as [_ [=]].
Qed.
(** ** Claims about the cart routes *)

(** C7. For a [userId] with no cart document, GetCart creates and persists an
    empty cart document and returns the empty sequence, whereas ClearCart in
    the same state fails with NotFound (and writes nothing); ClearCart on an
    existing cart sets its items to the empty sequence, and the document is
    still stored afterwards. *)
Theorem getCart_creates_clearCart_requires
    (e : Env) (userId : string) (db : Db) :
  findOne_rejects e = None →
  (stored_cart db userId = None →
   save_rejects e = None →
   (getCart e userId db).1 = json (CartBody None []) ∧
   stored_cart (getCart e userId db).2 userId
     = Some {| CartDoc.userId := userId; CartDoc.items := [];
               CartDoc.updatedAt := now e |}) ∧
  (stored_cart db userId = None →
   clearCart e userId db
     = (status_json 404 (FailBody "Cart not found" None), db)) ∧
  (∀ cart : CartDoc.t,
     stored_cart db userId = Some cart →
     save_rejects e = None →
     (clearCart e userId db).1 = json (CartBody (Some "Cart cleared") []) ∧
     stored_cart (clearCart e userId db).2 userId
       = Some {| CartDoc.userId := userId; CartDoc.items := [];
                 CartDoc.updatedAt := now e |}).
Proof.
  intros Hf. split; [|split].
  - intros Hnone Hs. rewrite getCart_run by done. rewrite Hnone, Hs. simpl.
    split; [done|].
    pose proof (stored_cart_written db (Cart.new e userId []) (users db)
                  userId Hnone) as Hw.
    simpl in Hw. rewrite bool_decide_eq_true_2 in Hw by done. exact Hw.
  - intros Hnone. rewrite clearCart_run by done. by rewrite Hnone.
  - intros cart Hcart Hs. rewrite clearCart_run by done. rewrite Hcart.
    pose proof (stored_cart_userId _ _ _ Hcart) as Hu.
    destruct (save_and_answer_ok e "Cart cleared" "Error clearing cart"
                (Cart.set_items [] (loaded cart)) db Hs eq_refl) as [Hr Hdb].
    { by apply (placed_loaded db userId cart). }
    simpl in Hr, Hdb. rewrite Hu in Hdb. by split.
Qed.

(** The two states of the theorem above, at user ["u1"]: the empty store,
    and the store GetCart leaves behind. *)
Lemma getCart_creates_clearCart_requires_witness :
  let e := ok_env 1000 "oid1" in
  let db1 := (getCart e "u1" empty_db).2 in
  ((getCart e "u1" empty_db).1 = json (CartBody None []) ∧
   stored_cart db1 "u1"
     = Some {| CartDoc.userId := "u1"; CartDoc.items := [];
               CartDoc.updatedAt := 1000 |}) ∧
  clearCart e "u1" empty_db
    = (status_json 404 (FailBody "Cart not found" None), empty_db) ∧
  ((clearCart e "u1" db1).1 = json (CartBody (Some "Cart cleared") []) ∧
   stored_cart (clearCart e "u1" db1).2 "u1"
     = Some {| CartDoc.userId := "u1"; CartDoc.items := [];
               CartDoc.updatedAt := 1000 |}).
Proof.
  intros e db1.
  pose proof (getCart_creates_clearCart_requires e "u1" empty_db eq_refl)
    as (Hget & Hclear & _).
  pose proof (getCart_creates_clearCart_requires e "u1" db1 eq_refl)
    as (_ & _ & Hclear1).
  split; [exact (Hget eq_refl eq_refl)|].
  split; [exact (Hclear eq_refl)|].
  exact (Hclear1 _ eq_refl eq_refl).
Defined.

(** C5. UpdateQuantity fails with NotFound exactly when no cart document is
    stored for the [userId] or the cart holds no line item whose [id] is the
    parsed [itemId]; whenever it fails so, the store is left as it was. *)
Theorem updateQuantity_not_found
    (e : Env) (userId itemId : string) (quantity : option num) (db : Db) :
  findOne_rejects e = None →
  (status (updateQuantity e userId itemId quantity db).1 = 404 ↔
     stored_cart db userId = None ∨
     ∃ cart : CartDoc.t,
       stored_cart db userId = Some cart ∧
       ∀ item : Item.t, item ∈ CartDoc.items cart → ¬ id_is itemId item) ∧
  (status (updateQuantity e userId itemId quantity db).1 = 404 →
     (updateQuantity e userId itemId quantity db).2 = db).
Proof.
  intros Hf. rewrite updateQuantity_run by done.
  destruct (stored_cart db userId) as [cart|]; [|split; [split|]; auto].
  cbv zeta.
  destruct (findIndex_correct (has_id itemId) (CartDoc.items cart))
    as [Hall | i x Hi Hx _].
  - simpl. split; [split|]; [|done..]. intros _. right. exists cart.
    split; [done|]. intros item Hin. apply has_id_false.
    rewrite Forall_forall in Hall. by apply Hall.
  - replace (Z.of_nat i =? -1) with false by (symmetry; apply Z.eqb_neq; lia).
    split; [split|].
    + intros H. by apply save_and_answer_status in H.
    + intros [H | (c & [= <-] & Hall)]; [discriminate|]. exfalso.
      apply (Hall x); [by eapply list_elem_of_lookup_2 | by apply has_id_true].
    + intros H. by apply save_and_answer_status in H.
Qed.

(** The theorem above where no cart is stored (404), where the cart lacks
    the item (404, store unchanged) and where it holds it (200); and for a
    parameter beyond 2^53, which is the [id] of the item it rounds to. *)
Lemma updateQuantity_not_found_witness :
  let e := ok_env 1000 "oid1" in
  let item7 := Item.mk (Some 7) None (Some "M") None None (Some (Int 2)) None in
  let big :=
    Item.mk (Some 9007199254740992) None None None None (Some (Int 2)) None in
  let db1 := (addItem e "u1" item7 empty_db).2 in
  let db2 := (addItem e "u2" big empty_db).2 in
  status (updateQuantity e "u1" "7" (Some (Int 3)) empty_db).1 = 404 ∧
  (updateQuantity e "u1" "8" (Some (Int 3)) db1).2 = db1 ∧
  status (updateQuantity e "u1" "7" (Some (Int 3)) db1).1 = 200 ∧
  status (updateQuantity e "u2" "9007199254740993" (Some (Int 3)) db2).1
    ≠ 404.
Proof.
  intros e item7 big db1 db2.
  pose proof (updateQuantity_not_found e "u1" "7" (Some (Int 3)) empty_db
                eq_refl) as [H0 _].
  pose proof (updateQuantity_not_found e "u1" "8" (Some (Int 3)) db1
                eq_refl) as [_ H1].
  pose proof (updateQuantity_not_found e "u2" "9007199254740993"
                (Some (Int 3)) db2 eq_refl) as [H2 _].
  split; [apply H0; by left|]. split; [by apply H1|].
  split; [reflexivity|].
  intros H404. apply H2 in H404 as [Hnone | (cart & Hcart & Hall)];
    [discriminate|].
  injection Hcart as <-.
  apply (Hall big); [apply list_elem_of_here|].
  exists 9007199254740992. split; reflexivity.
Defined.

(** C4. On a stored cart holding at least one line item with the parsed
    [itemId], UpdateQuantity sets the quantity of the first such item, in
    sequence order, to [max(1, quantity)] and leaves every other item as it
    was: a requested quantity of zero or less is stored as exactly 1, and a
    quantity of 1 or more is stored as it is, however large. *)
Theorem updateQuantity_clamps
    (e : Env) (userId itemId : string) (q n : Z) (db : Db) (cart : CartDoc.t) :
  findOne_rejects e = None →
  save_rejects e = None →
  stored_cart db userId = Some cart →
  parseInt itemId = Int n →
  (∃ item : Item.t, item ∈ CartDoc.items cart ∧ Item.id item = Some n) →
  ∃ (i : nat) (item : Item.t),
    CartDoc.items cart !! i = Some item ∧
    Item.id item = Some n ∧
    (∀ (j : nat) (y : Item.t),
       (j < i)%nat → CartDoc.items cart !! j = Some y → Item.id y ≠ Some n) ∧
    let items' :=
      <[i := Item.set_quantity (Some (Int (Z.max 1 q))) item]>
        (CartDoc.items cart) in
    (updateQuantity e userId itemId (Some (Int q)) db).1
      = json (CartBody (Some "Quantity updated") items') ∧
    stored_cart (updateQuantity e userId itemId (Some (Int q)) db).2 userId
      = Some {| CartDoc.userId := userId; CartDoc.items := items';
                CartDoc.updatedAt := now e |} ∧
    (q ≤ 0 → Item.quantity <$> items' !! i = Some (Some (Int 1))) ∧
    (1 ≤ q → Item.quantity <$> items' !! i = Some (Some (Int q))).
Proof.
  intros Hf Hs Hcart Hn (item0 & Hin & Hid0).
  assert (Hp : ∀ y, has_id itemId y = true ↔ Item.id y = Some n).
  { intros y. rewrite has_id_true. unfold id_is. rewrite Hn. split.
    - by intros (m & [= <-] & ?).
    - intros ?. by exists n. }
  destruct (findIndex_found (has_id itemId) (CartDoc.items cart) item0 Hin)
    as (i & item & Hidx & Hi & Hitem & Hlt); [by apply Hp|].
  exists i, item. split; [done|]. split; [by apply Hp|]. split.
  { intros j y Hj Hy Hyid. apply Hp in Hyid.
    specialize (Hlt j y Hj Hy). congruence. }
  cbv zeta. rewrite updateQuantity_run by done. rewrite Hcart. cbv zeta.
  rewrite Hidx.
  replace (Z.of_nat i =? -1) with false by (symmetry; apply Z.eqb_neq; lia).
  rewrite Nat2Z.id.
  pose proof (stored_cart_userId _ _ _ Hcart) as Hu.
  destruct (assign_quantity_spec i (λ _, Math_max_1 (Some (Int q)))
              (loaded cart) item Hi) as (Hnew & Hid & Hset & _).
  destruct Hset as [Herr Hitems]; [done|].
  match goal with
  | |- context [save_and_answer e ?m ?em ?c db] =>
      destruct (save_and_answer_ok e m em c db Hs Herr) as [Hr Hdb];
        [by apply (placed_loaded db userId cart)|]
  end.
  rewrite Hid, Hitems in Hdb. rewrite Hitems in Hr. simpl in Hr, Hdb.
  rewrite Hu in Hdb.
  split; [exact Hr|]. split; [exact Hdb|].
  rewrite list_lookup_insert_eq by (by eapply lookup_lt_Some). simpl.
  split; intros Hq; do 3 f_equal; lia.
Qed.

(** The theorem above on a cart with two variants of product 7: the request
    for quantity -4 stores 1 on the first variant and leaves the second. *)
Lemma updateQuantity_clamps_witness :
  let e := ok_env 1000 "oid1" in
  let item7M := Item.mk (Some 7) None (Some "M") None None (Some (Int 2)) None in
  let item7L := Item.mk (Some 7) None (Some "L") None None (Some (Int 5)) None in
  let cart := {| CartDoc.userId := "u1"; CartDoc.items := [item7M; item7L];
                 CartDoc.updatedAt := 1000 |} in
  let db2 := (addItem e "u1" item7L (addItem e "u1" item7M empty_db).2).2 in
  stored_cart db2 "u1" = Some cart ∧
  ∃ (i : nat) (item : Item.t),
    [item7M; item7L] !! i = Some item ∧
    Item.id item = Some 7 ∧
    (∀ (j : nat) (y : Item.t),
       (j < i)%nat → [item7M; item7L] !! j = Some y → Item.id y ≠ Some 7) ∧
    let items' :=
      <[i := Item.set_quantity (Some (Int (Z.max 1 (-4)))) item]>
        [item7M; item7L] in
    (updateQuantity e "u1" "7" (Some (Int (-4))) db2).1
      = json (CartBody (Some "Quantity updated") items') ∧
    stored_cart (updateQuantity e "u1" "7" (Some (Int (-4))) db2).2 "u1"
      = Some {| CartDoc.userId := "u1"; CartDoc.items := items';
                CartDoc.updatedAt := 1000 |} ∧
    (-4 ≤ 0 → Item.quantity <$> items' !! i = Some (Some (Int 1))) ∧
    (1 ≤ -4 → Item.quantity <$> items' !! i = Some (Some (Int (-4)))).
Proof.
  intros e item7M item7L cart db2. split; [reflexivity|].
  apply (updateQuantity_clamps e "u1" "7" (-4) 7 db2 cart);
    [reflexivity | reflexivity | reflexivity | reflexivity |].
  exists item7M. split; [apply list_elem_of_here | reflexivity].
Defined.

(** The remove handler's [filter] keeps exactly the items whose [id] is not
    the parsed [itemId]. *)
Lemma filter_has_id (itemId : string) (l : list Item.t) :
  List.filter (λ item, negb (has_id itemId item)) l
  = filter (λ item, ¬ id_is itemId item) l.
Proof.
  induction l as [|x l IH]; [done|]. simpl. rewrite filter_cons.
  destruct (has_id itemId x) eqn:E; simpl.
  - rewrite decide_False; [done|]. intros H. apply has_id_false in H.
    congruence.
  - rewrite decide_True; [by f_equal|]. by apply has_id_false.
Qed.

Lemma filter_all {A : Type} (P : A → Prop) `{!∀ x, Decision (P x)}
    (l : list A) :
  (∀ x, x ∈ l → P x) → filter P l = l.
Proof.
  induction l as [|x l IH]; intros Hall; [done|]. rewrite filter_cons.
  rewrite decide_True by (apply Hall; left). f_equal. apply IH.
  intros y Hy. apply Hall. by right.
Qed.

(** RemoveItem on a stored cart, when the save does not reject. *)
Lemma removeItem_ok (e : Env) (userId itemId : string) (db : Db)
    (cart : CartDoc.t) :
  findOne_rejects e = None →
  save_rejects e = None →
  stored_cart db userId = Some cart →
  let items' := filter (λ item, ¬ id_is itemId item) (CartDoc.items cart) in
  (removeItem e userId itemId db).1
    = json (CartBody (Some "Item removed from cart") items') ∧
  stored_cart (removeItem e userId itemId db).2 userId
    = Some {| CartDoc.userId := userId; CartDoc.items := items';
              CartDoc.updatedAt := now e |}.
Proof.
  intros Hf Hs Hcart. cbv zeta. rewrite removeItem_run by done. rewrite Hcart.
  rewrite filter_has_id.
  pose proof (stored_cart_userId _ _ _ Hcart) as Hu.
  match goal with
  | |- context [save_and_answer e ?m ?em ?c db] =>
      destruct (save_and_answer_ok e m em c db Hs eq_refl) as [Hr Hdb];
        [by apply (placed_loaded db userId cart)|]
  end.
  simpl in Hr, Hdb. rewrite Hu in Hdb.
  split; [exact Hr | exact Hdb].
Qed.

(** C6. On a stored cart, RemoveItem removes every line item whose [id] is
    the parsed [itemId], whatever its size and colour, and keeps the others
    in order; when no item has that [id] it succeeds with the sequence
    unchanged; it fails with NotFound only when no cart document is stored
    for the [userId]. *)
Theorem removeItem_removes_every_variant
    (e : Env) (userId itemId : string) (db : Db) :
  findOne_rejects e = None →
  (status (removeItem e userId itemId db).1 = 404 ↔
     stored_cart db userId = None) ∧
  (∀ cart : CartDoc.t,
     stored_cart db userId = Some cart →
     save_rejects e = None →
     let items' := filter (λ item, ¬ id_is itemId item) (CartDoc.items cart) in
     (removeItem e userId itemId db).1
       = json (CartBody (Some "Item removed from cart") items') ∧
     stored_cart (removeItem e userId itemId db).2 userId
       = Some {| CartDoc.userId := userId; CartDoc.items := items';
                 CartDoc.updatedAt := now e |} ∧
     (∀ item : Item.t,
        item ∈ items' ↔ item ∈ CartDoc.items cart ∧ ¬ id_is itemId item) ∧
     ((∀ item : Item.t, item ∈ CartDoc.items cart → ¬ id_is itemId item) →
        items' = CartDoc.items cart)).
Proof.
  intros Hf. split.
  - rewrite removeItem_run by done.
    destruct (stored_cart db userId) as [cart|]; [|done].
    split; [|discriminate]. intros H. by apply save_and_answer_status in H.
  - intros cart Hcart Hs. cbv zeta.
    destruct (removeItem_ok e userId itemId db cart Hf Hs Hcart) as [Hr Hdb].
    split; [exact Hr|]. split; [exact Hdb|]. split.
    + intros item. rewrite list_elem_of_filter. tauto.
    + apply filter_all.
Qed.

(** The theorem above on a cart with two variants of product 7 and one of
    product 9: removing ["7"] leaves the product 9 item alone, and with no
    cart stored the answer is 404; and for a parameter beyond 2^53, which
    removes the item whose [id] it rounds to. *)
Lemma removeItem_removes_every_variant_witness :
  let e := ok_env 1000 "oid1" in
  let item7M := Item.mk (Some 7) None (Some "M") None None (Some (Int 2)) None in
  let item9 := Item.mk (Some 9) None None None None (Some (Int 1)) None in
  let item7L := Item.mk (Some 7) None (Some "L") None None (Some (Int 5)) None in
  let big :=
    Item.mk (Some 9007199254740992) None None None None (Some (Int 2)) None in
  let db3 :=
    (addItem e "u1" item7L
       (addItem e "u1" item9 (addItem e "u1" item7M empty_db).2).2).2 in
  let db4 := (addItem e "u2" big empty_db).2 in
  status (removeItem e "u1" "7" empty_db).1 = 404 ∧
  (removeItem e "u1" "7" db3).1
    = json (CartBody (Some "Item removed from cart") [item9]) ∧
  (removeItem e "u2" "9007199254740993" db4).1
    = json (CartBody (Some "Item removed from cart") []).
Proof.
  intros e item7M item9 item7L big db3 db4.
  pose proof (removeItem_removes_every_variant e "u1" "7" empty_db eq_refl)
    as [H404 _].
  pose proof (removeItem_removes_every_variant e "u1" "7" db3 eq_refl)
    as [_ Hrm].
  pose proof (removeItem_removes_every_variant e "u2" "9007199254740993" db4
                eq_refl) as [_ Hbig].
  split; [exact (proj2 H404 eq_refl)|].
  split; [exact (proj1 (Hrm _ eq_refl eq_refl))|].
  exact (proj1 (Hbig _ eq_refl eq_refl)).
Defined.

(** C10. When the [itemId] route parameter does not parse ([parseInt] yields
    [NaN]), the parsed value is strictly equal to no item [id]; so on a
    stored cart UpdateQuantity fails with NotFound (item not found), writing
    nothing, and RemoveItem succeeds and returns the item sequence as it
    was. *)
Theorem unparsable_itemId
    (e : Env) (userId itemId : string) (quantity : option num) (db : Db)
    (cart : CartDoc.t) :
  findOne_rejects e = None →
  stored_cart db userId = Some cart →
  parseInt itemId = NaN →
  (∀ id : option Z, strict_eq_num id (parseInt itemId) = false) ∧
  updateQuantity e userId itemId quantity db
    = (status_json 404 (FailBody "Item not found in cart" None), db) ∧
  (save_rejects e = None →
   (removeItem e userId itemId db).1
     = json (CartBody (Some "Item removed from cart") (CartDoc.items cart)) ∧
   stored_cart (removeItem e userId itemId db).2 userId
     = Some {| CartDoc.userId := userId; CartDoc.items := CartDoc.items cart;
               CartDoc.updatedAt := now e |}).
Proof.
  intros Hf Hcart Hnan. split; [|split].
  - intros id. rewrite Hnan. by destruct id.
  - rewrite updateQuantity_run by done. rewrite Hcart. cbv zeta.
    rewrite findIndex_absent; [done|].
    intros item _. by apply has_id_NaN.
  - intros Hs.
    destruct (removeItem_ok e userId itemId db cart Hf Hs Hcart) as [Hr Hdb].
    cbv zeta in Hr, Hdb.
    rewrite filter_all in Hr, Hdb
      by (intros item _; apply has_id_false; by apply has_id_NaN).
    split; [exact Hr | exact Hdb].
Qed.

(** The theorem above for the parameter ["abc"]. *)
Lemma unparsable_itemId_witness :
  let e := ok_env 1000 "oid1" in
  let item7 := Item.mk (Some 7) None (Some "M") None None (Some (Int 2)) None in
  let db1 := (addItem e "u1" item7 empty_db).2 in
  parseInt "abc" = NaN ∧
  updateQuantity e "u1" "abc" (Some (Int 3)) db1
    = (status_json 404 (FailBody "Item not found in cart" None), db1) ∧
  (removeItem e "u1" "abc" db1).1
    = json (CartBody (Some "Item removed from cart") [item7]).
Proof.
  intros e item7 db1.
  pose proof (unparsable_itemId e "u1" "abc" (Some (Int 3)) db1
                {| CartDoc.userId := "u1"; CartDoc.items := [item7];
                   CartDoc.updatedAt := 1000 |}
                eq_refl eq_refl eq_refl) as (_ & Hupd & Hrm).
  split; [reflexivity|]. split; [exact Hupd|].
  exact (proj1 (Hrm eq_refl)).
Defined.


(** C1. The claim is that AddItem of a variant not yet in the cart stores the
    supplied quantity, or 1 when the quantity is omitted, zero or otherwise
    falsy.  The handler pushes the incoming item as it is: on the empty cart
    of user ["u1"] an incoming quantity of 0 is stored as 0, and an omitted
    quantity is stored as omitted, on a stored cart and on the first add
    alike; the default of 1 is applied on the increment path only. *)
Theorem addItem_new_variant_falsy_quantity :
  let e := ok_env 1000 "oid1" in
  let shirt (quantity : option num) :=
    Item.mk (Some 7) (Some "Shirt") (Some "M") (Some "red") (Some (10 # 1)%Q)
      quantity None in
  let db1 := (getCart e "u1" empty_db).2 in
  (addItem e "u1" (shirt (Some (Int 0))) db1).1
    = json (CartBody (Some "Item added to cart") [shirt (Some (Int 0))]) ∧
  (addItem e "u1" (shirt None) db1).1
    = json (CartBody (Some "Item added to cart") [shirt None]) ∧
  (addItem e "u1" (shirt None) empty_db).1
    = json (CartBody (Some "Item added to cart") [shirt None]) ∧
  (λ cart, Item.quantity <$> CartDoc.items cart)
      <$> stored_cart (addItem e "u1" (shirt (Some (Int 0))) db1).2 "u1"
    = Some [Some (Int 0)] ∧
  (λ cart, Item.quantity <$> CartDoc.items cart)
      <$> stored_cart (addItem e "u1" (shirt None) db1).2 "u1"
    = Some [None].
Proof. repeat split; reflexivity. Qed.


(** C3 (amended). On a stored cart holding a line item with the variant (id,
    size, color) of the incoming item, AddItem finds the first such item;
    when its stored quantity is an integer [q], the request asks for [k] (its
    quantity if that is an integer other than zero; 1 if it has none, or
    zero, or [NaN]), the sum [q + k] is at most 2^53 in magnitude and the
    save is accepted, the quantity of that item becomes [q + k], and every
    other item and the length of the sequence stay as they were. *)
Theorem addItem_existing_variant
    (e : Env) (userId : string) (newItem : Item.t) (db : Db)
    (cart : CartDoc.t) :
  findOne_rejects e = None →
  save_rejects e = None →
  stored_cart db userId = Some cart →
  (∃ item : Item.t,
     item ∈ CartDoc.items cart ∧ Item.triple item = Item.triple newItem) →
  ∃ (i : nat) (item : Item.t),
    CartDoc.items cart !! i = Some item ∧
    Item.triple item = Item.triple newItem ∧
    (∀ (j : nat) (y : Item.t),
       (j < i)%nat → CartDoc.items cart !! j = Some y →
       Item.triple y ≠ Item.triple newItem) ∧
    ∀ q k : Z,
      Item.quantity item = Some (Int q) →
      asks_for (Item.quantity newItem) k →
      Z.abs (q + k) ≤ 2 ^ 53 →
      let items' :=
        <[i := Item.set_quantity (Some (Int (q + k))) item]>
          (CartDoc.items cart) in
      (addItem e userId newItem db).1
        = json (CartBody (Some "Item added to cart") items') ∧
      stored_cart (addItem e userId newItem db).2 userId
        = Some {| CartDoc.userId := userId; CartDoc.items := items';
                  CartDoc.updatedAt := now e |} ∧
      length items' = length (CartDoc.items cart).
Proof.
  intros Hf Hs Hcart (item0 & Hin & Htriple).
  destruct (findIndex_found (same_variant (ItemBody.of_item newItem))
              (CartDoc.items cart) item0 Hin)
    as (i & item & Hidx & Hi & Hitem & Hlt); [by apply same_variant_true|].
  exists i, item. split; [done|].
  split; [by apply same_variant_true|]. split.
  { intros j y Hj Hy. apply same_variant_false. by apply (Hlt j y). }
  rewrite addItem_run by done. rewrite Hcart. cbv zeta. rewrite Hidx.
  replace (-1 <? Z.of_nat i) with true by (symmetry; apply Z.ltb_lt; lia).
  rewrite Nat2Z.id.
  pose proof (stored_cart_userId _ _ _ Hcart) as Hu.
  destruct (assign_quantity_spec i
              (λ quantity, js_add quantity (or_1 (Item.quantity newItem)))
              (loaded cart) item Hi) as (Hnew & Hid & Hset & _).
  intros q k Hq Hk Hsafe. cbv zeta.
  assert (Hv : js_add (Item.quantity item) (or_1 (Item.quantity newItem))
               = Int (q + k)).
  { rewrite Hq, (or_1_asks_for _ _ Hk). simpl. by apply round_double_safe. }
  cbv beta in Hset. rewrite Hv in Hset.
  destruct Hset as [Herr Hitems]; [done|].
  match goal with
  | |- context [save_and_answer e ?m ?em ?c db] =>
      destruct (save_and_answer_ok e m em c db Hs Herr) as [Hr Hdb];
        [by apply (placed_loaded db userId cart)|]
  end.
  rewrite Hid, Hitems in Hdb. rewrite Hitems in Hr. simpl in Hr, Hdb.
  rewrite Hu in Hdb.
  split; [exact Hr|]. split; [exact Hdb|]. apply length_insert.
Qed.

(** The theorem above on the cart holding product 7, size M, red, quantity 2,
    when the same variant comes in with quantity 3, and when it comes in
    with quantity 0. *)
Lemma addItem_existing_variant_witness :
  let e := ok_env 1000 "oid1" in
  let shirt (quantity : option num) :=
    Item.mk (Some 7) None (Some "M") (Some "red") None quantity None in
  let db1 := (addItem e "u1" (shirt (Some (Int 2))) empty_db).2 in
  (addItem e "u1" (shirt (Some (Int 3))) db1).1
    = json (CartBody (Some "Item added to cart") [shirt (Some (Int 5))]) ∧
  (addItem e "u1" (shirt (Some (Int 0))) db1).1
    = json (CartBody (Some "Item added to cart") [shirt (Some (Int 3))]).
Proof.
  intros e shirt db1.
  assert (Hex : ∀ newItem, Item.triple newItem = Item.triple (shirt None) →
            ∃ item : Item.t,
              item ∈ [shirt (Some (Int 2))]
              ∧ Item.triple item = Item.triple newItem).
  { intros newItem Ht. exists (shirt (Some (Int 2))).
    split; [apply list_elem_of_here | by rewrite Ht]. }
  split.
  - destruct (addItem_existing_variant e "u1" (shirt (Some (Int 3))) db1
                {| CartDoc.userId := "u1";
                   CartDoc.items := [shirt (Some (Int 2))];
                   CartDoc.updatedAt := 1000 |}
                eq_refl eq_refl eq_refl (Hex _ eq_refl))
      as (i & item & Hi & _ & _ & Hadd).
    destruct i as [|i]; [|destruct i; discriminate].
    injection Hi as <-.
    refine (proj1 (Hadd 2 3 eq_refl _ _)); [|simpl; lia].
    left. split; [reflexivity | lia].
  - destruct (addItem_existing_variant e "u1" (shirt (Some (Int 0))) db1
                {| CartDoc.userId := "u1";
                   CartDoc.items := [shirt (Some (Int 2))];
                   CartDoc.updatedAt := 1000 |}
                eq_refl eq_refl eq_refl (Hex _ eq_refl))
      as (i & item & Hi & _ & _ & Hadd).
    destruct i as [|i]; [|destruct i; discriminate].
    injection Hi as <-.
    refine (proj1 (Hadd 2 1 eq_refl _ _)); [|simpl; lia].
    right. split; [reflexivity | right; left; reflexivity].
Defined.

(** C3, as it is stated, fails in two ways.  On the cart made by adding
    product 7 with no quantity, which stores the item with no quantity,
    adding the same variant again is answered with status 500 and changes
    nothing.  On the cart holding product 7 with quantity 2^53, the same
    variant coming in with quantity 1 leaves the quantity at 2^53, the double
    nearest to the sum. *)
Lemma addItem_existing_variant_not_incremented :
  let e := ok_env 1000 "oid1" in
  let shirt (quantity : option num) :=
    Item.mk (Some 7) None (Some "M") (Some "red") None quantity None in
  let db0 := (addItem e "u1" (shirt None) empty_db).2 in
  let db1 :=
    (addItem e "u1" (shirt (Some (Int 9007199254740992))) empty_db).2 in
  CartDoc.items <$> stored_cart db0 "u1" = Some [shirt None] ∧
  status (addItem e "u1" (shirt (Some (Int 2))) db0).1 = 500 ∧
  (addItem e "u1" (shirt (Some (Int 2))) db0).2 = db0 ∧
  (addItem e "u1" (shirt (Some (Int 1))) db1).1
    = json (CartBody (Some "Item added to cart")
              [shirt (Some (Int 9007199254740992))]) ∧
  shirt (Some (Int 9007199254740992))
    ≠ shirt (Some (Int (9007199254740992 + 1))).
Proof.
  intros e shirt db0 db1. repeat split; try reflexivity. intros [=].
Qed.

(** ** The variant invariant *)

Lemma replace_Forall (P : CartDoc.t → Prop) (cart : CartDoc.t)
    (l : list CartDoc.t) :
  P cart → Forall P l → Forall P (replace cart l).
Proof.
  intros Hc. induction 1 as [|c l Hp Hl IH]; simpl.
  - constructor.
  - destruct (bool_decide (CartDoc.userId c = CartDoc.userId cart));
      by constructor.
Qed.

Lemma save_and_answer_preserves (P : list Item.t → Prop) (e : Env)
    (message error_message : string) (cart : Doc CartDoc.t) (db : Db) :
  P (Cart.items cart) →
  Forall (λ c, P (CartDoc.items c)) (carts db) →
  Forall (λ c, P (CartDoc.items c))
    (carts (save_and_answer e message error_message cart db).2).
Proof.
  intros Hc Hdb. rewrite save_and_answer_run.
  destruct (save_rejects e); simpl; [done|].
  destruct (errors cart); simpl; [|done].
  destruct (isNew cart).
  - apply Forall_app. split; [done|]. by constructor.
  - by apply (replace_Forall (λ c, P (CartDoc.items c))).
Qed.

Lemma triples_assign_quantity (i : nat) (f : option num → num)
    (cart : Doc CartDoc.t) :
  Item.triple <$> Cart.items (Cart.assign_quantity i f cart)
  = Item.triple <$> Cart.items cart.
Proof.
  unfold Cart.assign_quantity.
  destruct (Cart.items cart !! i) as [item|] eqn:Hi; [|done].
  destruct (f (Item.quantity item)); try done;
    unfold Cart.items in *; simpl;
    rewrite list_fmap_insert, triple_set_quantity;
    apply list_insert_id; by rewrite list_lookup_fmap, Hi.
Qed.

Lemma NoDup_fmap_filter {A B : Type} (f : A → B) (p : A → bool) (l : list A) :
  NoDup (f <$> l) → NoDup (f <$> List.filter p l).
Proof.
  induction l as [|x l IH]; simpl; [done|].
  rewrite NoDup_cons. intros [Hx Hl].
  destruct (p x); simpl; [|by apply IH].
  apply NoDup_cons. split; [|by apply IH].
  intros Hin. apply Hx.
  apply list_elem_of_fmap in Hin as (y & -> & Hy).
  apply list_elem_of_In, filter_In in Hy as [Hy _].
  apply list_elem_of_fmap. exists y. split; [done | by apply list_elem_of_In].
Qed.

Lemma NoDup_triples_snoc (newItem : Item.t) (l : list Item.t) :
  NoDup (Item.triple <$> l) →
  Forall (λ x, same_variant (ItemBody.of_item newItem) x = false) l →
  NoDup (Item.triple
           <$> (l ++ [ItemBody.cast (ItemBody.of_item newItem)])%list).
Proof.
  intros Hl Hall. rewrite fmap_app. apply NoDup_app. split; [done|]. split.
  - intros t Ht Hnew. apply list_elem_of_fmap in Ht as (x & -> & Hx).
    apply list_elem_of_singleton in Hnew.
    rewrite triple_cast_of_item in Hnew.
    rewrite Forall_forall in Hall. specialize (Hall x Hx).
    by apply same_variant_false in Hall.
  - apply NoDup_singleton.
Qed.

(** Every request keeps the invariant on every stored cart. *)
Lemma handle_preserves_variants_unique (e : Env) (r : Request) (db : Db) :
  Forall variants_unique (carts db) →
  Forall variants_unique (carts (handle e r db).2).
Proof.
  intros Hdb.
  destruct (findOne_rejects e) as [error|] eqn:Hf.
  { destruct (findOne_rejected e r db error Hf) as [_ ->]. done. }
  destruct r as [userId | userId newItem | userId itemId quantity
                | userId itemId | userId | email password name
                | email password]; simpl.
  - rewrite getCart_run by done.
    destruct (stored_cart db userId); [done|].
    destruct (save_rejects e); [done|]. simpl.
    apply Forall_app. split; [done|]. constructor; [|done]. apply NoDup_nil_2.
  - rewrite addItem_run by done.
    apply (save_and_answer_preserves (λ l, NoDup (Item.triple <$> l)));
      [|done].
    destruct (stored_cart db userId) as [cart|] eqn:Hcart.
    + apply stored_cart_elem in Hcart.
      rewrite Forall_forall in Hdb. specialize (Hdb cart Hcart). cbv zeta.
      destruct (findIndex_correct (same_variant (ItemBody.of_item newItem))
                  (CartDoc.items cart)) as [Hall | i x Hi Hx _].
      * simpl. by apply NoDup_triples_snoc.
      * replace (-1 <? Z.of_nat i) with true
          by (symmetry; apply Z.ltb_lt; lia).
        by rewrite triples_assign_quantity.
    + apply NoDup_singleton.
  - rewrite updateQuantity_run by done.
    destruct (stored_cart db userId) as [cart|] eqn:Hcart; [|done].
    cbv zeta.
    destruct (findIndex (has_id itemId) (CartDoc.items cart) =? -1); [done|].
    apply (save_and_answer_preserves (λ l, NoDup (Item.triple <$> l)));
      [|done].
    apply stored_cart_elem in Hcart.
    rewrite Forall_forall in Hdb. specialize (Hdb cart Hcart).
    by rewrite triples_assign_quantity.
  - rewrite removeItem_run by done.
    destruct (stored_cart db userId) as [cart|] eqn:Hcart; [|done].
    apply (save_and_answer_preserves (λ l, NoDup (Item.triple <$> l)));
      [|done].
    apply stored_cart_elem in Hcart.
    rewrite Forall_forall in Hdb. specialize (Hdb cart Hcart). simpl.
    by apply NoDup_fmap_filter.
  - rewrite clearCart_run by done.
    destruct (stored_cart db userId) as [cart|] eqn:Hcart; [|done].
    apply (save_and_answer_preserves (λ l, NoDup (Item.triple <$> l)));
      [|done].
    apply NoDup_nil_2.
  - run_handler. rewrite Hf.
    destruct (List.find _ (users db)); [done|]. simpl.
    destruct (save_rejects e); [done|].
    by destruct (User.required_errors _ _ _ ++ User.required_errors _ _ _)%list.
  - run_handler. rewrite Hf. by destruct (List.find _ (users db)).
Qed.

Lemma reachable_variants_unique (db : Db) :
  reachable db → Forall variants_unique (carts db).
Proof.
  induction 1 as [|e r db _ IH]; [constructor|].
  by apply handle_preserves_variants_unique.
Qed.

Lemma filter_none {A : Type} (P : A → Prop) `{!∀ x, Decision (P x)}
    (l : list A) :
  (∀ x, x ∈ l → ¬ P x) → filter P l = [].
Proof.
  induction l as [|x l IH]; intros Hall; [done|]. rewrite filter_cons.
  rewrite decide_False by (apply Hall; left). apply IH.
  intros y Hy. apply Hall. by right.
Qed.

Lemma count_variant_NoDup (t : option Z * option string * option string)
    (l : list Item.t) :
  NoDup (Item.triple <$> l) → (count_variant t l ≤ 1)%nat.
Proof.
  unfold count_variant. induction l as [|x l IH]; simpl; [lia|].
  rewrite NoDup_cons. intros [Hx Hl]. rewrite filter_cons.
  destruct (decide (Item.triple x = t)) as [<- | Hne]; [|by apply IH].
  simpl. rewrite filter_none; [simpl; lia|].
  intros y Hy Heq. apply Hx.
  rewrite <- Heq. by apply list_elem_of_fmap_2.
Qed.

(** C2 (amended). In every cart document of every database the server can
    reach from the empty one by any sequence of requests whose bodies have
    the types of the schemas (an [id] that is a number, or absent; sizes and
    colors that are strings, or absent), at most one line item has a given
    (id, size, color). *)
Theorem reachable_cart_one_item_per_variant
    (db : Db) (cart : CartDoc.t)
    (t : option Z * option string * option string) :
  reachable db →
  cart ∈ carts db →
  (count_variant t (CartDoc.items cart) ≤ 1)%nat.
Proof.
  intros Hreach Hcart.
  apply reachable_variants_unique in Hreach.
  rewrite Forall_forall in Hreach.
  by apply count_variant_NoDup, Hreach.
Qed.

(** The theorem above in the store reached by adding product 7 in size M,
    adding it in size M again, and adding it in size L: the cart holds one
    line item of size M, with both quantities, and one of size L. *)
Lemma reachable_cart_one_item_per_variant_witness :
  let e := ok_env 1000 "oid1" in
  let item7M (q : Z) :=
    Item.mk (Some 7) None (Some "M") None None (Some (Int q)) None in
  let item7L := Item.mk (Some 7) None (Some "L") None None (Some (Int 1)) None in
  let cart := {| CartDoc.userId := "u1";
                 CartDoc.items := [item7M 5; item7L];
                 CartDoc.updatedAt := 1000 |} in
  let db3 :=
    (handle e (AddItem "u1" item7L)
       (handle e (AddItem "u1" (item7M 3))
          (handle e (AddItem "u1" (item7M 2)) empty_db).2).2).2 in
  reachable db3 ∧ carts db3 = [cart] ∧
  (count_variant (Some 7%Z, Some "M", None) (CartDoc.items cart) ≤ 1)%nat.
Proof.
  intros e item7M item7L cart db3.
  assert (Hreach : reachable db3)
    by (do 3 apply reachable_handle; apply reachable_empty).
  split; [exact Hreach|]. split; [reflexivity|].
  apply (reachable_cart_one_item_per_variant db3 cart _ Hreach).
  apply list_elem_of_here.
Defined.

(** C2, as it is stated, fails for a body whose [id] is a string: the stored
    [id] is the number the string spells, which is not strictly equal to the
    string of the next body, so the same body added twice gives two line
    items with one (id, size, color). *)
Lemma numeral_id_is_added_twice :
  let e := ok_env 1000 "oid1" in
  let body :=
    ItemBody.mk (IdNumeral 7) None (Some "M") (Some "red") None
      (Some (Int 1)) None in
  let item7 :=
    Item.mk (Some 7) None (Some "M") (Some "red") None (Some (Int 1)) None in
  let db2 := (addItem_body e "u1" body (addItem_body e "u1" body empty_db).2).2 in
  stored_cart db2 "u1"
    = Some {| CartDoc.userId := "u1"; CartDoc.items := [item7; item7];
              CartDoc.updatedAt := 1000 |} ∧
  count_variant (Some 7, Some "M", Some "red") [item7; item7] = 2%nat.
Proof. split; reflexivity. Qed.

(** ** Claims about the user routes *)

Lemma register_body_run (e : Env) (email password : credential)
    (name : option string) (db : Db) :
  findOne_rejects e = None →
  register_body e email password name db =
    match List.find (λ u, matches email (UserDoc.email u)) (users db) with
    | Some _ => (status_json 400 (FailBody "User already exists" None), db)
    | None =>
        match save_rejects e with
        | Some error =>
            (status_json 500 (FailBody "Error registering user" (Some error)),
             db)
        | None =>
            let user := User.new e email password name in
            match (errors user
                   ++ User.required_errors "email" (UserDoc.email (fields user))
                        (errors user)
                   ++ User.required_errors "password"
                        (UserDoc.password (fields user)) (errors user))%list
            with
            | [] =>
                (json (RegisteredBody "User registered successfully"
                         (new_ObjectId e)),
                 {| carts := carts db;
                    users := (users db ++ [fields user])%list |})
            | errs =>
                (status_json 500
                   (FailBody "Error registering user"
                      (Some (validation_failed "User" errs))),
                 db)
            end
        end
    end.
Proof.
  intros Hf. run_handler. rewrite Hf.
  destruct (List.find _ (users db)); [done|]. simpl.
  destruct (save_rejects e); [done|].
  by destruct (_ ++ _)%list.
Qed.

(** The errors of a constructed account whose email and password are
    strings: none, unless one of them is empty. *)
Lemma register_errors (e : Env) (email password : string)
    (name : option string) :
  let user := User.new e (Str email) (Str password) name in
  (errors user
   ++ User.required_errors "email" (UserDoc.email (fields user)) (errors user)
   ++ User.required_errors "password" (UserDoc.password (fields user))
        (errors user))%list = []
  ↔ email ≠ "" ∧ password ≠ "".
Proof.
  simpl. unfold User.required_errors. simpl.
  do 2 case_bool_decide; simpl; split; try done; intros [? ?]; done.
Qed.

Lemma register_run (e : Env) (email password : string) (name : option string)
    (db : Db) :
  findOne_rejects e = None →
  register e email password name db =
    match List.find (λ u, bool_decide (UserDoc.email u = email)) (users db) with
    | Some _ => (status_json 400 (FailBody "User already exists" None), db)
    | None =>
        match save_rejects e with
        | Some error =>
            (status_json 500 (FailBody "Error registering user" (Some error)),
             db)
        | None =>
            if bool_decide (email ≠ "" ∧ password ≠ "") then
              (json (RegisteredBody "User registered successfully"
                       (new_ObjectId e)),
               {| carts := carts db;
                  users :=
                    (users db
                     ++ [fields (User.new e (Str email) (Str password) name)])%list
               |})
            else
              (status_json 500
                 (FailBody "Error registering user"
                    (Some (validation_failed "User"
                             (User.required_errors "email" email []
                              ++ User.required_errors "password" password [])
                             %list))),
               db)
        end
    end.
Proof.
  intros Hf. unfold register. rewrite register_body_run by done.
  destruct (List.find _ (users db)); [done|].
  destruct (save_rejects e); [done|]. cbv zeta.
  pose proof (register_errors e email password name) as Herr.
  cbv zeta in Herr. simpl in *.
  destruct (_ ++ _)%list eqn:E.
  - rewrite bool_decide_eq_true_2; [done | by apply Herr].
  - rewrite bool_decide_eq_false_2; [done|]. intros H. by apply Herr in H.
Qed.

Lemma login_body_run (e : Env) (email password : credential) (db : Db) :
  findOne_rejects e = None →
  login_body e email password db =
    match List.find
            (λ u, matches email (UserDoc.email u)
                  && matches password (UserDoc.password u))
            (users db) with
    | None => (status_json 401 (FailBody "Invalid credentials" None), db)
    | Some user =>
        (json (LoggedInBody "Login successful"
                 {| login_id := UserDoc._id user;
                    login_email := UserDoc.email user;
                    login_name := UserDoc.name user |}),
         db)
    end.
Proof.
  intros Hf. run_handler. rewrite Hf.
  by destruct (List.find _ (users db)).
Qed.

Lemma login_run (e : Env) (email password : string) (db : Db) :
  findOne_rejects e = None →
  login e email password db =
    match List.find
            (λ u, bool_decide (UserDoc.email u = email)
                  && bool_decide (UserDoc.password u = password))
            (users db) with
    | None => (status_json 401 (FailBody "Invalid credentials" None), db)
    | Some user =>
        (json (LoggedInBody "Login successful"
                 {| login_id := UserDoc._id user;
                    login_email := UserDoc.email user;
                    login_name := UserDoc.name user |}),
         db)
    end.
Proof. intros Hf. unfold login. by rewrite login_body_run. Qed.

(** C8 (amended). Register with an email and a password that are strings
    fails with AlreadyExists exactly when a stored account has the given
    email, compared character for character, and then leaves the store as it
    was.  Otherwise, when the email and the password are not empty and the
    save is accepted, it stores one new account with the given email,
    password and name and [createdAt] set to the time of creation, and
    returns the identifier assigned to that account; when the email or the
    password is empty, the required check refuses the save: the answer has
    status 500 and nothing is stored. *)
Theorem register_already_exists_or_creates
    (e : Env) (email password : string) (name : option string) (db : Db) :
  findOne_rejects e = None →
  (status (register_body e (Str email) (Str password) name db).1 = 400 ↔
     ∃ u : UserDoc.t, u ∈ users db ∧ UserDoc.email u = email) ∧
  ((∃ u : UserDoc.t, u ∈ users db ∧ UserDoc.email u = email) →
   register_body e (Str email) (Str password) name db
     = (status_json 400 (FailBody "User already exists" None), db)) ∧
  ((∀ u : UserDoc.t, u ∈ users db → UserDoc.email u ≠ email) →
   save_rejects e = None →
   email ≠ "" → password ≠ "" →
   register_body e (Str email) (Str password) name db
     = (json (RegisteredBody "User registered successfully" (new_ObjectId e)),
        {| carts := carts db;
           users :=
             users db ++
               [{| UserDoc._id := new_ObjectId e; UserDoc.email := email;
                   UserDoc.password := password; UserDoc.name := name;
                   UserDoc.createdAt := now e |}] |})) ∧
  ((∀ u : UserDoc.t, u ∈ users db → UserDoc.email u ≠ email) →
   email = "" ∨ password = "" →
   status (register_body e (Str email) (Str password) name db).1 = 500 ∧
   (register_body e (Str email) (Str password) name db).2 = db).
Proof.
  intros Hf. fold (register e email password name).
  rewrite register_run by done.
  destruct (List.find _ (users db)) as [u|] eqn:Hfind.
  - apply find_some in Hfind as [Hin Hu].
    apply list_elem_of_In in Hin. apply bool_decide_eq_true in Hu.
    split; [split; [intros _; by exists u | done]|].
    split; [done|].
    split; intros Hnone; by destruct (Hnone u Hin).
  - assert (Hnone : ∀ u, u ∈ users db → UserDoc.email u ≠ email).
    { intros u Hin. apply list_elem_of_In in Hin.
      pose proof (find_none _ _ Hfind u Hin) as Hu.
      by apply bool_decide_eq_false in Hu. }
    split; [split|split; [|split]].
    + destruct (save_rejects e); [done|]. by case_bool_decide.
    + intros (u & Hin & Hu). by destruct (Hnone u Hin).
    + intros (u & Hin & Hu). by destruct (Hnone u Hin).
    + intros _ -> He Hp. by rewrite bool_decide_eq_true_2.
    + intros _ Hempty. destruct (save_rejects e); [done|].
      rewrite bool_decide_eq_false_2; [done|]. intros [? ?].
      by destruct Hempty.
Qed.

(** The theorem above: a first registration, a second one with the same
    email, one with an email that differs in letter case only, and one
    with an empty password. *)
Lemma register_already_exists_or_creates_witness :
  let e1 := ok_env 1000 "oid1" in
  let e2 := ok_env 2000 "oid2" in
  let ann := {| UserDoc._id := "oid1"; UserDoc.email := "ann@shop.co";
                UserDoc.password := "pw1"; UserDoc.name := Some "Ann";
                UserDoc.createdAt := 1000 |} in
  let db1 := {| carts := []; users := [ann] |} in
  register_body e1 (Str "ann@shop.co") (Str "pw1") (Some "Ann") empty_db
    = (json (RegisteredBody "User registered successfully" "oid1"), db1) ∧
  register_body e2 (Str "ann@shop.co") (Str "pw2") None db1
    = (status_json 400 (FailBody "User already exists" None), db1) ∧
  (register_body e2 (Str "Ann@shop.co") (Str "pw2") None db1).1
    = json (RegisteredBody "User registered successfully" "oid2") ∧
  (register_body e2 (Str "bob@shop.co") (Str "") None db1).2 = db1.
Proof.
  intros e1 e2 ann db1.
  pose proof (register_already_exists_or_creates e1 "ann@shop.co" "pw1"
                (Some "Ann") empty_db eq_refl) as (_ & _ & Hnew & _).
  pose proof (register_already_exists_or_creates e2 "ann@shop.co" "pw2"
                None db1 eq_refl) as (_ & Hdup & _).
  pose proof (register_already_exists_or_creates e2 "Ann@shop.co" "pw2"
                None db1 eq_refl) as (_ & _ & Hcase & _).
  pose proof (register_already_exists_or_creates e2 "bob@shop.co" ""
                None db1 eq_refl) as (_ & _ & _ & Hempty).
  split; [|split; [|split]].
  - apply Hnew; [|reflexivity|discriminate..].
    intros u Hu. by apply elem_of_nil in Hu.
  - apply Hdup. exists ann. split; [apply list_elem_of_here | reflexivity].
  - rewrite Hcase; [reflexivity | | reflexivity | discriminate..].
    intros u Hu. apply list_elem_of_singleton in Hu as ->. discriminate.
  - apply Hempty; [|by right].
    intros u Hu. apply list_elem_of_singleton in Hu as ->. discriminate.
Defined.

(** C8, as it is stated, fails in both directions.  An email that is not
    present and is empty is not registered: the answer has status 500 and
    nothing is stored.  An email that is the object [{ "$ne": "" }] is
    refused with AlreadyExists as soon as any account is stored, though no
    account has it as its email. *)
Lemma register_empty_email_or_operator :
  let e := ok_env 2000 "oid2" in
  let ann := {| UserDoc._id := "oid1"; UserDoc.email := "ann@shop.co";
                UserDoc.password := "pw1"; UserDoc.name := Some "Ann";
                UserDoc.createdAt := 1000 |} in
  let db1 := {| carts := []; users := [ann] |} in
  (status (register_body e (Str "") (Str "pw2") None db1).1 = 500 ∧
   (register_body e (Str "") (Str "pw2") None db1).2 = db1 ∧
   UserDoc.email ann ≠ "") ∧
  register_body e NotEmpty (Str "pw2") None db1
    = (status_json 400 (FailBody "User already exists" None), db1).
Proof. repeat split; try reflexivity. discriminate. Qed.

(** C9 (amended). Login with an email and a password that are strings
    succeeds exactly when a stored account has both the given email and the
    given password, each compared character for character.  It then answers
    with the identifier, email and name of that account and with nothing
    else of it, so the password is not in the response.  When no account
    has both, it fails with InvalidCredentials, whichever of the two fields
    is off.  Login never writes to the store. *)
Theorem login_succeeds_iff_credentials_match
    (e : Env) (email password : string) (db : Db) :
  findOne_rejects e = None →
  (status (login_body e (Str email) (Str password) db).1 = 200 ↔
     ∃ u : UserDoc.t,
       u ∈ users db ∧ UserDoc.email u = email ∧
       UserDoc.password u = password) ∧
  (status (login_body e (Str email) (Str password) db).1 = 200 →
     ∃ u : UserDoc.t,
       u ∈ users db ∧ UserDoc.email u = email ∧
       UserDoc.password u = password ∧
       (login_body e (Str email) (Str password) db).1
         = json (LoggedInBody "Login successful"
                   {| login_id := UserDoc._id u;
                      login_email := UserDoc.email u;
                      login_name := UserDoc.name u |})) ∧
  (status (login_body e (Str email) (Str password) db).1 ≠ 200 →
     (login_body e (Str email) (Str password) db).1
       = status_json 401 (FailBody "Invalid credentials" None)) ∧
  (login_body e (Str email) (Str password) db).2 = db.
Proof.
  intros Hf. rewrite login_body_run by done. simpl.
  destruct (List.find _ (users db)) as [u|] eqn:Hfind.
  - apply find_some in Hfind as [Hin Hu].
    apply list_elem_of_In in Hin.
    apply andb_true_iff in Hu as [He Hp].
    apply bool_decide_eq_true in He. apply bool_decide_eq_true in Hp.
    split; [split; [intros _; by exists u | done]|].
    split; [intros _; by exists u|]. split; [|done].
    intros H. by destruct H.
  - split; [|split; [|split]]; [|discriminate|done|done].
    split; [discriminate|]. intros (u & Hin & He & Hp).
    apply list_elem_of_In in Hin.
    pose proof (find_none _ _ Hfind u Hin) as Hu. simpl in Hu.
    rewrite !bool_decide_eq_true_2 in Hu by done. discriminate.
Qed.

(** The theorem above after one registration: the right credentials, and
    the right email with a wrong password. *)
Lemma login_succeeds_iff_credentials_match_witness :
  let e := ok_env 2000 "oid2" in
  let ann := {| UserDoc._id := "oid1"; UserDoc.email := "ann@shop.co";
                UserDoc.password := "pw1"; UserDoc.name := Some "Ann";
                UserDoc.createdAt := 1000 |} in
  let db1 := {| carts := []; users := [ann] |} in
  status (login_body e (Str "ann@shop.co") (Str "pw1") db1).1 = 200 ∧
  (login_body e (Str "ann@shop.co") (Str "wrong") db1).1
    = status_json 401 (FailBody "Invalid credentials" None).
Proof.
  intros e ann db1.
  pose proof (login_succeeds_iff_credentials_match e "ann@shop.co" "pw1" db1
                eq_refl) as (Hok & _).
  pose proof (login_succeeds_iff_credentials_match e "ann@shop.co" "wrong"
                db1 eq_refl) as (_ & _ & Hbad & _).
  split.
  - apply Hok. exists ann.
    split; [apply list_elem_of_here | split; reflexivity].
  - apply Hbad. discriminate.
Defined.

(** C9, as it is stated, fails for a password that is not a string: the
    object [{ "$ne": "" }] is used as the filter of the query, which every
    stored password that is not empty satisfies, so the login succeeds with
    no password equal to a stored one. *)
Lemma login_with_operator_password :
  let e := ok_env 2000 "oid2" in
  let ann := {| UserDoc._id := "oid1"; UserDoc.email := "ann@shop.co";
                UserDoc.password := "pw1"; UserDoc.name := Some "Ann";
                UserDoc.createdAt := 1000 |} in
  let db1 := {| carts := []; users := [ann] |} in
  login_body e (Str "ann@shop.co") NotEmpty db1
    = (json (LoggedInBody "Login successful"
               {| login_id := "oid1"; login_email := "ann@shop.co";
                  login_name := Some "Ann" |}),
       db1) ∧
  NotEmpty ≠ Str (UserDoc.password ann).
Proof. split; [reflexivity | discriminate]. Qed.

(** ** The scenarios of the specification *)

(** Adding product 7, size M, red, with quantity 2 and then with quantity 3
    gives one line item with quantity 5. *)
Example scenario_same_variant_adds_up :
  let e := ok_env 1000 "oid1" in
  let first :=
    Item.mk (Some 7) None (Some "M") (Some "red") (Some (10 # 1)%Q)
      (Some (Int 2)) None in
  let second :=
    Item.mk (Some 7) None (Some "M") (Some "red") None (Some (Int 3)) None in
  (addItem e "u1" second (addItem e "u1" first empty_db).2).1
    = json (CartBody (Some "Item added to cart")
              [Item.set_quantity (Some (Int 5)) first]).
Proof. reflexivity. Qed.

(** Adding product 7 in size M and then in size L gives two line items. *)
Example scenario_two_sizes :
  let e := ok_env 1000 "oid1" in
  let item7M := Item.mk (Some 7) None (Some "M") None None None None in
  let item7L := Item.mk (Some 7) None (Some "L") None None None None in
  (addItem e "u1" item7L (addItem e "u1" item7M empty_db).2).1
    = json (CartBody (Some "Item added to cart") [item7M; item7L]).
Proof. reflexivity. Qed.

(** * Further properties of the handlers *)

(** ** What a request does to the store *)

Lemma assign_quantity_keeps (i : nat) (f : option num → num)
    (cart : Doc CartDoc.t) :
  isNew (Cart.assign_quantity i f cart) = isNew cart ∧
  CartDoc.userId (fields (Cart.assign_quantity i f cart))
    = CartDoc.userId (fields cart).
Proof.
  unfold Cart.assign_quantity.
  destruct (Cart.items cart !! i) as [item|]; [|done].
  by destruct (f (Item.quantity item)).
Qed.

Lemma save_and_answer_outcome (e : Env) (r : Request)
    (message error_message : string) (cart : Doc CartDoc.t) (db : Db) :
  cart_user r = Some (CartDoc.userId (fields cart)) →
  placed db cart →
  findOne_rejects e = None →
  outcome e r db (save_and_answer e message error_message cart db).
Proof.
  intros Hu Hp Hf. rewrite save_and_answer_run.
  destruct (save_rejects e) eqn:Hs; [constructor|].
  destruct (errors cart) eqn:He; [|constructor].
  by apply (outcome_cart_saved e r db (Some message)
              (Cart.set_updatedAt (now e) cart)).
Qed.

(** The document the add handler has in hand before it saves: it is of the
    user of the request, and placed in the store. *)
Lemma addItem_in_hand (e : Env) (userId : string) (newItem : ItemBody.t)
    (db : Db) :
  let cart :=
    match stored_cart db userId with
    | None => Cart.new e userId [newItem]
    | Some cart =>
        let i := findIndex (same_variant newItem) (CartDoc.items cart) in
        if -1 <? i then
          Cart.assign_quantity (Z.to_nat i)
            (λ quantity, js_add quantity (or_1 (ItemBody.quantity newItem)))
            (loaded cart)
        else Cart.push newItem (loaded cart)
    end in
  CartDoc.userId (fields cart) = userId ∧ placed db cart.
Proof.
  cbv zeta. destruct (stored_cart db userId) as [cart|] eqn:Hcart.
  - pose proof (stored_cart_userId _ _ _ Hcart) as Hu.
    destruct (-1 <? _).
    + destruct (assign_quantity_keeps
                  (Z.to_nat (findIndex (same_variant newItem)
                               (CartDoc.items cart)))
                  (λ quantity,
                     js_add quantity (or_1 (ItemBody.quantity newItem)))
                  (loaded cart)) as [Hnew Hid].
      split; [by rewrite Hid|]. by apply (placed_loaded db userId cart).
    + split; [done|]. by apply (placed_loaded db userId cart).
  - split; [done|]. exact Hcart.
Qed.

(** The same for the update handler. *)
Lemma assign_in_hand (db : Db) (userId : string) (cart : CartDoc.t) (i : nat)
    (f : option num → num) :
  stored_cart db userId = Some cart →
  CartDoc.userId (fields (Cart.assign_quantity i f (loaded cart))) = userId ∧
  placed db (Cart.assign_quantity i f (loaded cart)).
Proof.
  intros Hcart. pose proof (stored_cart_userId _ _ _ Hcart) as Hu.
  destruct (assign_quantity_keeps i f (loaded cart)) as [Hnew Hid].
  split; [by rewrite Hid|]. by apply (placed_loaded db userId cart).
Qed.

Lemma handle_outcome (e : Env) (r : Request) (db : Db) :
  outcome e r db (handle e r db).
Proof.
  destruct (findOne_rejects e) as [error|] eqn:Hf.
  { destruct (findOne_rejected e r db error Hf) as [_ Hdb].
    rewrite (surjective_pairing (handle e r db)), Hdb. constructor. }
  destruct r as [userId | userId newItem | userId itemId quantity
                | userId itemId | userId | email password name
                | email password]; simpl.
  - rewrite getCart_run by done.
    destruct (stored_cart db userId) eqn:Hcart; [constructor|].
    destruct (save_rejects e) eqn:Hs; [constructor|].
    by apply (outcome_cart_saved e _ db None (Cart.new e userId [])).
  - unfold addItem. rewrite addItem_body_run by done.
    destruct (addItem_in_hand e userId (ItemBody.of_item newItem) db)
      as [Hu Hp].
    apply save_and_answer_outcome; [by rewrite Hu | done | done].
  - rewrite updateQuantity_run by done.
    destruct (stored_cart db userId) as [cart|] eqn:Hcart; [|constructor].
    cbv zeta. destruct (_ =? -1); [constructor|].
    destruct (assign_in_hand db userId cart
                (Z.to_nat (findIndex (has_id itemId) (CartDoc.items cart)))
                (λ _, Math_max_1 quantity) Hcart) as [Hu Hp].
    apply save_and_answer_outcome; [by rewrite Hu | done | done].
  - rewrite removeItem_run by done.
    destruct (stored_cart db userId) as [cart|] eqn:Hcart; [|constructor].
    apply save_and_answer_outcome; [|by apply (placed_loaded db userId cart)
                                    |done].
    simpl. by rewrite (stored_cart_userId _ _ _ Hcart).
  - rewrite clearCart_run by done.
    destruct (stored_cart db userId) as [cart|] eqn:Hcart; [|constructor].
    apply save_and_answer_outcome; [|by apply (placed_loaded db userId cart)
                                    |done].
    simpl. by rewrite (stored_cart_userId _ _ _ Hcart).
  - rewrite register_run by done.
    destruct (List.find _ (users db)) as [u|] eqn:Hfind; [constructor|].
    destruct (save_rejects e) eqn:Hs; [constructor|].
    case_bool_decide; [|constructor].
    apply (outcome_user_saved e _ db email password name); try done.
    intros u Hin. apply list_elem_of_In in Hin.
    pose proof (find_none _ _ Hfind u Hin) as Hu.
    by apply bool_decide_eq_false in Hu.
  - rewrite login_run by done.
    destruct (List.find _ (users db)); constructor.
Qed.

(** X1. A request that is not answered with status 200 has written nothing:
    after a 400, 401, 404 or 500 the store is as it was before. *)
Theorem failed_request_writes_nothing (e : Env) (r : Request) (db : Db) :
  status (handle e r db).1 ≠ 200 → (handle e r db).2 = db.
Proof.
  intros Hstatus.
  destruct (handle_outcome e r db) as [resp | message cart _ _ _ _
                                      | email password name _ _ _ _];
    [done | by destruct Hstatus..].
Qed.

(** The theorem above for a second registration of one email. *)
Lemma failed_request_writes_nothing_witness :
  let e := ok_env 1000 "oid1" in
  let db1 := (register e "ann@shop.co" "pw1" None empty_db).2 in
  (handle e (Register "ann@shop.co" "pw2" None) db1).2 = db1.
Proof.
  intros e db1.
  apply (failed_request_writes_nothing e
           (Register "ann@shop.co" "pw2" None) db1).
  discriminate.
Defined.

(** X2. When the awaited [findOne] rejects, every route answers with status
    500, the message of its own [catch] block and the message of the error,
    and writes nothing. *)
Theorem findOne_rejection_answers_500
    (e : Env) (r : Request) (db : Db) (error : string) :
  findOne_rejects e = Some error →
  handle e r db
    = (status_json 500 (FailBody (catch_message r) (Some error)), db).
Proof.
  intros Hf. destruct r; simpl; run_handler; by rewrite Hf.
Qed.

(** The theorem above for a lost connection during an add. *)
Lemma findOne_rejection_answers_500_witness :
  let e := {| now := 1000; new_ObjectId := "oid1";
              findOne_rejects := Some "connection lost";
              save_rejects := None |} in
  let item7 := Item.mk (Some 7) None None None None None None in
  handle e (AddItem "u1" item7) empty_db
    = (status_json 500
         (FailBody "Error adding item to cart" (Some "connection lost")),
       empty_db).
Proof.
  intros e item7.
  exact (findOne_rejection_answers_500 e (AddItem "u1" item7) empty_db
           "connection lost" eq_refl).
Defined.

(** X3. When the awaited [save] rejects, the store is left as it was,
    whatever the request; an answer with status 500 then carries the message
    of the route and the message of the error; and AddItem, which saves on
    every path, is answered with status 500. *)
Theorem save_rejection_writes_nothing
    (e : Env) (r : Request) (db : Db) (error : string) :
  findOne_rejects e = None →
  save_rejects e = Some error →
  (handle e r db).2 = db ∧
  (status (handle e r db).1 = 500 →
   (handle e r db).1
     = status_json 500 (FailBody (catch_message r) (Some error))) ∧
  (∀ (userId : string) (item : Item.t),
     r = AddItem userId item → status (handle e r db).1 = 500).
Proof.
  intros Hf Hs. split; [|split].
  - destruct (handle_outcome e r db) as [resp | message cart _ _ _ Hs'
                                        | email password name _ _ _ Hs'];
      [done | congruence..].
  - destruct r as [userId | userId newItem | userId itemId quantity
                  | userId itemId | userId | email password name
                  | email password]; simpl.
    + rewrite getCart_run by done.
      destruct (stored_cart db userId); [discriminate|]. by rewrite Hs.
    + rewrite addItem_run by done. by rewrite save_and_answer_run, Hs.
    + rewrite updateQuantity_run by done.
      destruct (stored_cart db userId); [|discriminate]. cbv zeta.
      destruct (_ =? -1); [discriminate|].
      by rewrite save_and_answer_run, Hs.
    + rewrite removeItem_run by done.
      destruct (stored_cart db userId); [|discriminate].
      by rewrite save_and_answer_run, Hs.
    + rewrite clearCart_run by done.
      destruct (stored_cart db userId); [|discriminate].
      by rewrite save_and_answer_run, Hs.
    + rewrite register_run by done.
      destruct (List.find _ (users db)); [discriminate|]. by rewrite Hs.
    + rewrite login_run by done.
      destruct (List.find _ (users db)); discriminate.
  - intros userId item ->. simpl. rewrite addItem_run by done.
    by rewrite save_and_answer_run, Hs.
Qed.

(** The theorem above for an add whose save is refused. *)
Lemma save_rejection_writes_nothing_witness :
  let e := {| now := 1000; new_ObjectId := "oid1";
              findOne_rejects := None;
              save_rejects := Some "validation failed" |} in
  let item7 := Item.mk (Some 7) None None None None None None in
  (handle e (AddItem "u1" item7) empty_db).2 = empty_db ∧
  status (handle e (AddItem "u1" item7) empty_db).1 = 500.
Proof.
  intros e item7.
  destruct (save_rejection_writes_nothing e (AddItem "u1" item7) empty_db
              "validation failed" eq_refl eq_refl) as (Hdb & _ & Hadd).
  split; [exact Hdb | exact (Hadd "u1" item7 eq_refl)].
Defined.

(** ** One user's cart and the others *)

(** X4. A cart request of one user leaves the stored cart of every other
    user as it was, and so do Register and Login. *)
Theorem other_carts_untouched
    (e : Env) (r : Request) (db : Db) (other : string) :
  cart_user r ≠ Some other →
  stored_cart (handle e r db).2 other = stored_cart db other.
Proof.
  intros Hother.
  destruct (handle_outcome e r db) as [resp | message cart Hu Hp _ _
                                      | email password name _ _ _ _];
    [done | | done].
  simpl. rewrite (stored_cart_written db cart (users db) other Hp).
  rewrite bool_decide_eq_false_2; [done|].
  intros <-. by apply Hother.
Qed.

(** The theorem above: the cart of ["u2"] after ["u1"] clears theirs. *)
Lemma other_carts_untouched_witness :
  let e := ok_env 1000 "oid1" in
  let item7 := Item.mk (Some 7) None None None None (Some (Int 2)) None in
  let db2 := (addItem e "u2" item7 (addItem e "u1" item7 empty_db).2).2 in
  stored_cart (handle e (ClearCart "u1") db2).2 "u2" = stored_cart db2 "u2".
Proof.
  intros e item7 db2.
  apply (other_carts_untouched e (ClearCart "u1") db2 "u2"). discriminate.
Defined.

(** X5. Cart requests never write to the user collection, and Register and
    Login never write to the cart collection. *)
Theorem collections_are_separate (e : Env) (r : Request) (db : Db) :
  match cart_user r with
  | Some _ => users (handle e r db).2 = users db
  | None => carts (handle e r db).2 = carts db
  end.
Proof.
  destruct (handle_outcome e r db) as [resp | message cart Hu _ _ _
                                      | email password name -> _ _ _].
  - by destruct (cart_user r).
  - by rewrite Hu.
  - done.
Qed.

(** Membership in a list that is written out. *)
Ltac in_list :=
  simpl; repeat first [apply list_elem_of_here | apply list_elem_of_further].

(** X13. The status of an answer is one of those of its route: GetCart and
    AddItem never answer 404, since they create the cart they miss; 400 comes
    from Register only and 401 from Login only. *)
Theorem status_of_route (e : Env) (r : Request) (db : Db) :
  status (handle e r db).1 ∈ statuses r.
Proof.
  destruct (findOne_rejects e) as [error|] eqn:Hf.
  { destruct (findOne_rejected e r db error Hf) as [-> _].
    destruct r; simpl; in_list. }
  destruct r as [userId | userId newItem | userId itemId quantity
                | userId itemId | userId | email password name
                | email password]; simpl.
  - rewrite getCart_run by done.
    destruct (stored_cart db userId); [in_list|].
    destruct (save_rejects e); in_list.
  - rewrite addItem_run by done. rewrite save_and_answer_run.
    destruct (save_rejects e); [in_list|]. destruct (errors _); in_list.
  - rewrite updateQuantity_run by done.
    destruct (stored_cart db userId); [|in_list]. cbv zeta.
    destruct (_ =? -1); [in_list|]. rewrite save_and_answer_run.
    destruct (save_rejects e); [in_list|]. destruct (errors _); in_list.
  - rewrite removeItem_run by done.
    destruct (stored_cart db userId); [|in_list]. rewrite save_and_answer_run.
    destruct (save_rejects e); in_list.
  - rewrite clearCart_run by done.
    destruct (stored_cart db userId); [|in_list]. rewrite save_and_answer_run.
    destruct (save_rejects e); in_list.
  - rewrite register_run by done.
    destruct (List.find _ (users db)); [in_list|].
    destruct (save_rejects e); [in_list|]. case_bool_decide; in_list.
  - rewrite login_run by done.
    destruct (List.find _ (users db)); in_list.
Qed.

(** ** Keys stay unique, documents stay stored *)

Lemma replace_userIds (cart : CartDoc.t) (l : list CartDoc.t) :
  CartDoc.userId <$> replace cart l = CartDoc.userId <$> l.
Proof.
  induction l as [|c l IH]; [done|]. cbn [replace].
  case_bool_decide as Hc; rewrite !fmap_cons; [by rewrite Hc | by rewrite IH].
Qed.

Lemma stored_cart_None (db : Db) (userId : string) :
  stored_cart db userId = None → userId ∉ CartDoc.userId <$> carts db.
Proof.
  unfold stored_cart. intros Hnone Hin.
  apply list_elem_of_fmap in Hin as (c & -> & Hc).
  apply list_elem_of_In in Hc.
  pose proof (find_none _ _ Hnone c Hc) as H. simpl in H.
  by rewrite bool_decide_eq_true_2 in H.
Qed.

(** X7. In every store the server can reach, no two cart documents have the
    same [userId]: a constructed cart is inserted, whatever the store holds,
    and the handlers construct a cart only for a user [findOne] found no
    cart of. *)
Theorem reachable_one_cart_per_user (db : Db) :
  reachable db → NoDup (CartDoc.userId <$> carts db).
Proof.
  induction 1 as [|e r db _ IH]; [apply NoDup_nil_2|].
  destruct (handle_outcome e r db) as [resp | message cart _ Hp _ _
                                      | email password name _ _ _ _];
    [done | | done].
  simpl. unfold placed in Hp. destruct (isNew cart).
  - rewrite fmap_app. apply NoDup_app. split; [done|]. split.
    + intros u Hu Hnew. apply list_elem_of_singleton in Hnew. subst u.
      by apply (stored_cart_None db _ Hp).
    + apply NoDup_singleton.
  - by rewrite replace_userIds.
Qed.

(** The theorem above after two users add an item each, fetch their carts
    and add again. *)
Lemma reachable_one_cart_per_user_witness :
  let e := ok_env 1000 "oid1" in
  let item7 := Item.mk (Some 7) None None None None (Some (Int 2)) None in
  let db4 :=
    (handle e (AddItem "u1" item7)
       (handle e (GetCart "u2")
          (handle e (AddItem "u2" item7)
             (handle e (AddItem "u1" item7) empty_db).2).2).2).2 in
  CartDoc.userId <$> carts db4 = ["u1"; "u2"] ∧
  NoDup (CartDoc.userId <$> carts db4).
Proof.
  intros e item7 db4. split; [reflexivity|].
  apply (reachable_one_cart_per_user db4).
  do 4 apply reachable_handle. apply reachable_empty.
Defined.

(** X8. In every store the server can reach, no two accounts have the same
    email: Register saves an account only when no stored account has the
    email. *)
Theorem reachable_one_account_per_email (db : Db) :
  reachable db → NoDup (UserDoc.email <$> users db).
Proof.
  induction 1 as [|e r db _ IH]; [apply NoDup_nil_2|].
  destruct (handle_outcome e r db) as [resp | message cart _ _ _ _
                                      | email password name _ Hnew _ _];
    [done | done |].
  simpl. rewrite fmap_app. apply NoDup_app. split; [done|]. split.
  - intros x Hx Hx'. apply list_elem_of_singleton in Hx'. subst x.
    apply list_elem_of_fmap in Hx as (u & Heq & Hu).
    by apply (Hnew u Hu).
  - apply NoDup_singleton.
Qed.

(** The theorem above after three registrations, one of them refused. *)
Lemma reachable_one_account_per_email_witness :
  let e := ok_env 1000 "oid1" in
  let db3 :=
    (handle e (Register "bob@shop.co" "pw3" None)
       (handle e (Register "ann@shop.co" "pw2" None)
          (handle e (Register "ann@shop.co" "pw1" None) empty_db).2).2).2 in
  UserDoc.email <$> users db3 = ["ann@shop.co"; "bob@shop.co"] ∧
  NoDup (UserDoc.email <$> users db3).
Proof.
  intros e db3. split; [reflexivity|].
  apply (reachable_one_account_per_email db3).
  do 3 apply reachable_handle. apply reachable_empty.
Defined.

Lemma handle_keeps_documents (e : Env) (r : Request) (db : Db)
    (userId : string) :
  (is_Some (stored_cart db userId) →
   is_Some (stored_cart (handle e r db).2 userId)) ∧
  users db `prefix_of` users (handle e r db).2.
Proof.
  destruct (handle_outcome e r db) as [resp | message cart _ Hp _ _
                                      | email password name _ _ _ _]; simpl.
  - done.
  - split; [|done]. intros Hsome.
    rewrite (stored_cart_written db cart (users db) userId Hp).
    by case_bool_decide.
  - split; [done|]. by apply prefix_app_r.
Qed.

(** X10. No sequence of requests deletes a document: a user who has a stored
    cart still has one afterwards (ClearCart empties it but keeps it), and
    the accounts stored before are still stored, unchanged and in the same
    order, before the accounts registered since. *)
Theorem documents_are_never_deleted
    (trace : list (Env * Request)) (db : Db) (userId : string) :
  (is_Some (stored_cart db userId) →
   is_Some (stored_cart (serve trace db) userId)) ∧
  users db `prefix_of` users (serve trace db).
Proof.
  revert db. induction trace as [|[e r] trace IH]; intros db; [done|].
  simpl. destruct (handle_keeps_documents e r db userId) as [Hc Hu].
  destruct (IH (handle e r db).2) as [Hc' Hu'].
  split; [auto | by etrans].
Qed.

(** The theorem above for a cart that is filled, cleared and emptied by a
    removal, between requests of other kinds. *)
Lemma documents_are_never_deleted_witness :
  let e := ok_env 1000 "oid1" in
  let item7 := Item.mk (Some 7) None None None None (Some (Int 2)) None in
  let db1 := (getCart e "u1" empty_db).2 in
  let trace :=
    [(e, AddItem "u1" item7); (e, Register "ann@shop.co" "pw1" None);
     (e, RemoveItem "u1" "7"); (e, ClearCart "u1")] in
  is_Some (stored_cart db1 "u1") ∧
  is_Some (stored_cart (serve trace db1) "u1").
Proof.
  intros e item7 db1 trace.
  assert (Hsome : is_Some (stored_cart db1 "u1")) by (eexists; reflexivity).
  split; [exact Hsome|].
  exact (proj1 (documents_are_never_deleted trace db1 "u1") Hsome).
Defined.

(** ** Requests in sequence *)

Lemma getCart_after_save (e e' : Env) (message0 error_message : string)
    (cart : Doc CartDoc.t) (db : Db) (message : option string)
    (l : list Item.t) :
  (save_and_answer e message0 error_message cart db).1
    = json (CartBody message l) →
  placed db cart →
  findOne_rejects e' = None →
  getCart e' (CartDoc.userId (fields cart))
    (save_and_answer e message0 error_message cart db).2
  = (json (CartBody None l),
     (save_and_answer e message0 error_message cart db).2).
Proof.
  rewrite save_and_answer_run. destruct (save_rejects e); [discriminate|].
  destruct (errors cart); [|discriminate].
  simpl. intros [= _ <-] Hp Hf. rewrite getCart_run by done.
  pose proof (stored_cart_written db (Cart.set_updatedAt (now e) cart)
                (users db) (CartDoc.userId (fields cart)) Hp) as Hw.
  simpl in Hw. rewrite bool_decide_eq_true_2 in Hw by done.
  by rewrite Hw.
Qed.

(** X6. The items a cart request answers with are the items stored: a
    GetCart of the same user served next returns the same sequence, and
    writes nothing. *)
Theorem getCart_returns_what_was_answered
    (e e' : Env) (r : Request) (db : Db) (userId : string)
    (message : option string) (l : list Item.t) :
  cart_user r = Some userId →
  (handle e r db).1 = json (CartBody message l) →
  findOne_rejects e' = None →
  getCart e' userId (handle e r db).2
    = (json (CartBody None l), (handle e r db).2).
Proof.
  intros Hr Hresp Hf'.
  destruct (findOne_rejects e) as [error|] eqn:Hf.
  { destruct (findOne_rejected e r db error Hf) as [Hstatus _].
    by rewrite Hresp in Hstatus. }
  destruct r as [u | u newItem | u itemId quantity | u itemId | u
                | email password name | email password];
    simpl in Hr; [injection Hr as -> ..| discriminate | discriminate];
    simpl in *.
  - rewrite (getCart_run e userId db Hf) in *.
    destruct (stored_cart db userId) as [cart|] eqn:Hcart.
    + injection Hresp as _ <-. simpl. rewrite getCart_run by done.
      by rewrite Hcart.
    + destruct (save_rejects e); [discriminate|]. injection Hresp as _ <-.
      simpl. rewrite getCart_run by done.
      pose proof (stored_cart_written db (Cart.new e userId []) (users db)
                    userId Hcart) as Hw.
      simpl in Hw. rewrite bool_decide_eq_true_2 in Hw by done.
      by rewrite Hw.
  - rewrite (addItem_run e userId newItem db Hf) in *.
    destruct (addItem_in_hand e userId (ItemBody.of_item newItem) db)
      as [Hu Hp].
    cbv zeta in Hu, Hp. simpl in Hu, Hp.
    rewrite <- Hu at 1. by eapply getCart_after_save.
  - rewrite (updateQuantity_run e userId itemId quantity db Hf) in *.
    destruct (stored_cart db userId) as [cart|] eqn:Hcart; [|discriminate].
    cbv zeta in *. destruct (_ =? -1); [discriminate|].
    destruct (assign_in_hand db userId cart
                (Z.to_nat (findIndex (has_id itemId) (CartDoc.items cart)))
                (λ _, Math_max_1 quantity) Hcart) as [Hu Hp].
    rewrite <- Hu at 1. by eapply getCart_after_save.
  - rewrite (removeItem_run e userId itemId db Hf) in *.
    destruct (stored_cart db userId) as [cart|] eqn:Hcart; [|discriminate].
    rewrite <- (stored_cart_userId _ _ _ Hcart) at 1.
    eapply (getCart_after_save e e' _ _ (Cart.set_items _ (loaded cart)));
      [done | by apply (placed_loaded db userId cart) | done].
  - rewrite (clearCart_run e userId db Hf) in *.
    destruct (stored_cart db userId) as [cart|] eqn:Hcart; [|discriminate].
    rewrite <- (stored_cart_userId _ _ _ Hcart) at 1.
    eapply (getCart_after_save e e' _ _ (Cart.set_items _ (loaded cart)));
      [done | by apply (placed_loaded db userId cart) | done].
Qed.

(** The theorem above after an update of a quantity. *)
Lemma getCart_returns_what_was_answered_witness :
  let e := ok_env 1000 "oid1" in
  let e' := ok_env 2000 "oid2" in
  let item7 := Item.mk (Some 7) None None None None (Some (Int 2)) None in
  let db1 := (addItem e "u1" item7 empty_db).2 in
  let r := UpdateQuantity "u1" "7" (Some (Int 9)) in
  let l := [Item.set_quantity (Some (Int 9)) item7] in
  (handle e r db1).1 = json (CartBody (Some "Quantity updated") l) ∧
  (getCart e' "u1" (handle e r db1).2).1 = json (CartBody None l).
Proof.
  intros e e' item7 db1 r l. split; [reflexivity|].
  rewrite (getCart_returns_what_was_answered e e' r db1 "u1"
             (Some "Quantity updated") l eq_refl eq_refl eq_refl).
  reflexivity.
Defined.

Lemma find_app_None {A : Type} (p : A → bool) (l l' : list A) :
  List.find p l = None → List.find p (l ++ l') = List.find p l'.
Proof.
  induction l as [|x l IH]; simpl; [done|].
  destruct (p x); [discriminate | exact IH].
Qed.

(** X9. After a successful Register, Login with the registered email and a
    password that is a string succeeds exactly with the registered password:
    it returns the identifier Register returned, the email and the name, and
    with any other string it is refused with status 401.  With the object
    [{ "$ne": "" }] in the place of the password it succeeds as well, a
    registered password being never empty. *)
Theorem login_after_register
    (e e' : Env) (email password : string) (name : option string) (db : Db) :
  status (register e email password name db).1 = 200 →
  findOne_rejects e' = None →
  let db' := (register e email password name db).2 in
  let logged_in :=
    json (LoggedInBody "Login successful"
            {| login_id := new_ObjectId e; login_email := email;
               login_name := name |}) in
  (register e email password name db).1
    = json (RegisteredBody "User registered successfully" (new_ObjectId e)) ∧
  login_body e' (Str email) (Str password) db' = (logged_in, db') ∧
  (∀ password' : string,
     password' ≠ password →
     login_body e' (Str email) (Str password') db'
       = (status_json 401 (FailBody "Invalid credentials" None), db')) ∧
  login_body e' (Str email) NotEmpty db' = (logged_in, db').
Proof.
  intros Hok Hf' db' logged_in. subst db' logged_in.
  destruct (findOne_rejects e) as [error|] eqn:Hf.
  { destruct (findOne_rejected e (Register email password name) db error Hf)
      as [Hstatus _].
    simpl in Hstatus. congruence. }
  rewrite (register_run e email password name db Hf) in *.
  destruct (List.find _ (users db)) as [u|] eqn:Hfind; [discriminate|].
  destruct (save_rejects e); [discriminate|].
  case_bool_decide as Hfilled; [|discriminate]. destruct Hfilled as [_ Hpw].
  simpl.
  assert (Hnone : ∀ q : UserDoc.t → bool,
             List.find (λ u, bool_decide (UserDoc.email u = email) && q u)
               (users db) = None).
  { intros q.
    destruct (List.find _ (users db)) as [u|] eqn:Hboth in |- *; [|done].
    apply find_some in Hboth as [Hin Hu].
    pose proof (find_none _ _ Hfind u Hin) as Hmail. simpl in Hmail.
    rewrite Hmail in Hu. discriminate. }
  split; [done|]. split; [|split].
  - rewrite login_body_run by done. simpl.
    rewrite (find_app_None _ _ _ (Hnone (λ u, bool_decide (_ = password)))).
    simpl. by rewrite !bool_decide_eq_true_2.
  - intros password' Hne. rewrite login_body_run by done. simpl.
    rewrite (find_app_None _ _ _ (Hnone (λ u, bool_decide (_ = password')))).
    simpl. rewrite bool_decide_eq_true_2 by done.
    by rewrite bool_decide_eq_false_2 by congruence.
  - rewrite login_body_run by done. simpl.
    rewrite (find_app_None _ _ _
               (Hnone (λ u, negb (bool_decide (UserDoc.password u = ""))))).
    simpl. rewrite bool_decide_eq_true_2 by done.
    by rewrite bool_decide_eq_false_2 by done.
Qed.

(** The theorem above for a first registration. *)
Lemma login_after_register_witness :
  let e := ok_env 1000 "oid1" in
  let e' := ok_env 2000 "oid2" in
  let db' := (register e "ann@shop.co" "pw1" (Some "Ann") empty_db).2 in
  let logged_in :=
    json (LoggedInBody "Login successful"
            {| login_id := "oid1"; login_email := "ann@shop.co";
               login_name := Some "Ann" |}) in
  (login e' "ann@shop.co" "pw1" db').1 = logged_in ∧
  (login e' "ann@shop.co" "PW1" db').1
    = status_json 401 (FailBody "Invalid credentials" None) ∧
  (login_body e' (Str "ann@shop.co") NotEmpty db').1 = logged_in.
Proof.
  intros e e' db' logged_in.
  destruct (login_after_register e e' "ann@shop.co" "pw1" (Some "Ann")
              empty_db eq_refl eq_refl) as (_ & Hok & Hbad & Hne).
  split; [|split].
  - exact (f_equal fst Hok).
  - refine (f_equal fst (Hbad "PW1" _)). discriminate.
  - exact (f_equal fst Hne).
Defined.

Lemma filter_filter_same {A : Type} (P : A → Prop) `{!∀ x, Decision (P x)}
    (l : list A) :
  filter P (filter P l) = filter P l.
Proof.
  apply filter_all. intros x Hx. by apply list_elem_of_filter in Hx as [Hx _].
Qed.

(** X11. After a successful RemoveItem, no stored item has the removed
    [itemId]: an UpdateQuantity for it is refused with 404 (item not found)
    and writes nothing, and a second RemoveItem returns the same sequence
    as the first. *)
Theorem removed_item_is_gone
    (e e1 : Env) (userId itemId : string) (quantity : option num) (db : Db)
    (cart : CartDoc.t) :
  findOne_rejects e = None →
  save_rejects e = None →
  stored_cart db userId = Some cart →
  findOne_rejects e1 = None →
  let db' := (removeItem e userId itemId db).2 in
  updateQuantity e1 userId itemId quantity db'
    = (status_json 404 (FailBody "Item not found in cart" None), db') ∧
  (save_rejects e1 = None →
   (removeItem e1 userId itemId db').1 = (removeItem e userId itemId db).1).
Proof.
  intros Hf Hs Hcart Hf1 db'. subst db'.
  destruct (removeItem_ok e userId itemId db cart Hf Hs Hcart) as [Hr Hdb].
  cbv zeta in Hr, Hdb. split.
  - rewrite updateQuantity_run by done. rewrite Hdb. cbv zeta. simpl.
    rewrite findIndex_absent; [done|].
    intros item Hin. apply list_elem_of_filter in Hin as [Hin _].
    by apply has_id_false.
  - intros Hs1.
    destruct (removeItem_ok e1 userId itemId _ _ Hf1 Hs1 Hdb) as [Hr1 _].
    cbv zeta in Hr1. simpl in Hr1. rewrite filter_filter_same in Hr1.
    by rewrite Hr1, Hr.
Qed.

(** The theorem above for product 7 in a cart of two products. *)
Lemma removed_item_is_gone_witness :
  let e := ok_env 1000 "oid1" in
  let item7 := Item.mk (Some 7) None None None None (Some (Int 2)) None in
  let item9 := Item.mk (Some 9) None None None None (Some (Int 1)) None in
  let db2 := (addItem e "u1" item9 (addItem e "u1" item7 empty_db).2).2 in
  let db' := (removeItem e "u1" "7" db2).2 in
  updateQuantity e "u1" "7" (Some (Int 3)) db'
    = (status_json 404 (FailBody "Item not found in cart" None), db') ∧
  (removeItem e "u1" "7" db').1
    = json (CartBody (Some "Item removed from cart") [item9]).
Proof.
  intros e item7 item9 db2 db'.
  destruct (removed_item_is_gone e e "u1" "7" (Some (Int 3)) db2
              {| CartDoc.userId := "u1"; CartDoc.items := [item7; item9];
                 CartDoc.updatedAt := 1000 |}
              eq_refl eq_refl eq_refl eq_refl) as [Hupd Hrm].
  split; [exact Hupd|]. exact (eq_trans (Hrm eq_refl) eq_refl).
Defined.

Lemma findIndex_from_insert {A : Type} (p : A → bool) (i : nat) (x y : A)
    (l : list A) (k : Z) :
  l !! i = Some x → p y = p x →
  findIndex_from p (<[i := y]> l) k = findIndex_from p l k.
Proof.
  intros Hi Hp. revert i k Hi.
  induction l as [|z l IH]; intros [|i] k Hi; simpl in *; try done.
  - injection Hi as ->. by rewrite Hp.
  - destruct (p z); [done | by apply IH].
Qed.

Lemma findIndex_cases {A : Type} (p : A → bool) (l : list A) :
  findIndex p l = -1 ∨
  ∃ (i : nat) (x : A),
    findIndex p l = Z.of_nat i ∧ l !! i = Some x ∧ p x = true.
Proof.
  pose proof (findIndex_correct p l) as H.
  inversion H as [_ Heq | i x Hi Hx _ Heq]; [by left|].
  right. by exists i, x.
Qed.

Lemma updateQuantity_found (e : Env) (userId itemId : string)
    (quantity : option num) (db : Db) (cart : CartDoc.t) (i : nat) :
  findOne_rejects e = None →
  stored_cart db userId = Some cart →
  findIndex (has_id itemId) (CartDoc.items cart) = Z.of_nat i →
  updateQuantity e userId itemId quantity db =
    save_and_answer e "Quantity updated" "Error updating quantity"
      (Cart.assign_quantity i (λ _, Math_max_1 quantity) (loaded cart)) db.
Proof.
  intros Hf Hcart Hidx. rewrite updateQuantity_run by done.
  rewrite Hcart. cbv zeta. rewrite Hidx.
  replace (Z.of_nat i =? -1) with false by (symmetry; apply Z.eqb_neq; lia).
  by rewrite Nat2Z.id.
Qed.

(** X15. UpdateQuantity is idempotent: served a second time with the same
    parameters, it gives the same answer as the first time, and the same
    stored items. *)
Theorem updateQuantity_idempotent
    (e e1 : Env) (userId itemId : string) (quantity : option num) (db : Db) :
  findOne_rejects e = None →
  save_rejects e = None →
  findOne_rejects e1 = None →
  save_rejects e1 = None →
  let db' := (updateQuantity e userId itemId quantity db).2 in
  (updateQuantity e1 userId itemId quantity db').1
    = (updateQuantity e userId itemId quantity db).1 ∧
  CartDoc.items
    <$> stored_cart (updateQuantity e1 userId itemId quantity db').2 userId
  = CartDoc.items <$> stored_cart db' userId.
Proof.
  intros Hf Hs Hf1 Hs1 db'. subst db'.
  destruct (stored_cart db userId) as [cart|] eqn:Hcart.
  2:{ rewrite (updateQuantity_run e userId itemId quantity db Hf).
      rewrite Hcart. simpl. rewrite updateQuantity_run by done.
      rewrite Hcart. simpl. by rewrite Hcart. }
  destruct (findIndex_cases (has_id itemId) (CartDoc.items cart))
    as [Hidx | (i & x & Hidx & Hi & Hx)].
  { rewrite (updateQuantity_run e userId itemId quantity db Hf).
    rewrite Hcart. cbv zeta. rewrite Hidx. simpl.
    rewrite updateQuantity_run by done. rewrite Hcart. cbv zeta.
    rewrite Hidx. simpl. by rewrite Hcart. }
  rewrite (updateQuantity_found e userId itemId quantity db cart i Hf Hcart
             Hidx).
  pose proof (stored_cart_userId _ _ _ Hcart) as Hu.
  destruct (assign_quantity_spec i (λ _, Math_max_1 quantity) (loaded cart)
              x Hi) as (_ & Hid & Hset & Hrefused).
  destruct (assign_in_hand db userId cart i (λ _, Math_max_1 quantity) Hcart)
    as [_ Hp].
  cbv beta in Hset, Hrefused.
  destruct (decide (Math_max_1 quantity = NaN)) as [HNaN | Hv].
  { specialize (Hrefused HNaN).
    rewrite save_and_answer_run, Hs.
    destruct (errors (Cart.assign_quantity i _ (loaded cart))) as [|err errs]
      eqn:Herr; [done|].
    simpl.
    rewrite (updateQuantity_found e1 userId itemId quantity db cart i Hf1
               Hcart Hidx).
    by rewrite save_and_answer_run, Hs1, Herr. }
  destruct (Hset Hv) as [Herr Hitems].
  unfold Cart.items in Hitems. simpl in Hitems.
  destruct (save_and_answer_ok e "Quantity updated" "Error updating quantity"
              _ db Hs Herr Hp) as [Hr Hdb].
  unfold Cart.items in Hr, Hdb. rewrite Hid, Hitems in Hdb.
  simpl in Hdb. rewrite Hu in Hdb. rewrite Hitems in Hr.
  set (x' := Item.set_quantity (Some (Math_max_1 quantity)) x) in *.
  set (cart' := {| CartDoc.userId := userId;
                   CartDoc.items := <[i := x']> (CartDoc.items cart);
                   CartDoc.updatedAt := now e |}) in *.
  assert (Hi' : CartDoc.items cart' !! i = Some x').
  { simpl. apply list_lookup_insert_eq. by eapply lookup_lt_Some. }
  assert (Hidx' : findIndex (has_id itemId) (CartDoc.items cart')
                  = Z.of_nat i).
  { rewrite <- Hidx. unfold findIndex. simpl.
    by apply (findIndex_from_insert _ i x). }
  rewrite (updateQuantity_found e1 userId itemId quantity _ cart' i Hf1 Hdb
             Hidx').
  destruct (assign_quantity_spec i (λ _, Math_max_1 quantity) (loaded cart')
              x' Hi') as (_ & Hid1 & Hset1 & _).
  destruct (Hset1 Hv) as [Herr1 Hitems1].
  unfold Cart.items in Hitems1. simpl in Hitems1.
  destruct (assign_in_hand _ userId cart' i (λ _, Math_max_1 quantity) Hdb)
    as [_ Hp1].
  destruct (save_and_answer_ok e1 "Quantity updated" "Error updating quantity"
              _ _ Hs1 Herr1 Hp1) as [Hr1 Hdb1].
  unfold Cart.items in Hr1, Hdb1. rewrite Hid1, Hitems1 in Hdb1.
  rewrite Hitems1 in Hr1. subst cart'. simpl in Hr1, Hdb1.
  rewrite list_insert_insert_eq in Hr1, Hdb1.
  by rewrite Hr1, Hr, Hdb1, Hdb.
Qed.

(** The theorem above for a quantity of 9 on product 7. *)
Lemma updateQuantity_idempotent_witness :
  let e := ok_env 1000 "oid1" in
  let e1 := ok_env 2000 "oid2" in
  let item7 := Item.mk (Some 7) None None None None (Some (Int 2)) None in
  let db1 := (addItem e "u1" item7 empty_db).2 in
  let db' := (updateQuantity e "u1" "7" (Some (Int 9)) db1).2 in
  (updateQuantity e1 "u1" "7" (Some (Int 9)) db').1
    = json (CartBody (Some "Quantity updated")
              [Item.set_quantity (Some (Int 9)) item7]).
Proof.
  intros e e1 item7 db1 db'.
  destruct (updateQuantity_idempotent e e1 "u1" "7" (Some (Int 9)) db1
              eq_refl eq_refl eq_refl eq_refl) as [Hr _].
  exact (eq_trans Hr eq_refl).
Defined.

Lemma same_but_quantity_all (l : list Item.t) :
  Forall2 same_but_quantity l l.
Proof. induction l; by constructor. Qed.

Lemma same_but_quantity_insert (v : option num) (i : nat) (x : Item.t)
    (l : list Item.t) :
  l !! i = Some x →
  Forall2 same_but_quantity l (<[i := Item.set_quantity v x]> l).
Proof.
  revert i. induction l as [|y l IH]; intros [|i] Hi; simpl in *; try done.
  - injection Hi as ->. constructor; [done | apply same_but_quantity_all].
  - constructor; [done | by apply IH].
Qed.

(** X12. An AddItem answered with status 200 keeps every line item that was
    in the cart, at its position and with its id, name, size, color, price
    and image (a quantity is all that can change); it adds at most one item,
    the incoming one, at the end; and afterwards the cart holds an item with
    the incoming (id, size, color). *)
Theorem addItem_keeps_the_cart
    (e : Env) (userId : string) (newItem : Item.t) (db : Db) :
  status (addItem e userId newItem db).1 = 200 →
  let old := default [] (CartDoc.items <$> stored_cart db userId) in
  ∃ kept added : list Item.t,
    (addItem e userId newItem db).1
      = json (CartBody (Some "Item added to cart") (kept ++ added)) ∧
    Forall2 same_but_quantity old kept ∧
    (added = [] ∨ added = [newItem]) ∧
    ∃ item : Item.t,
      item ∈ (kept ++ added)%list ∧ Item.triple item = Item.triple newItem.
Proof.
  intros Hok old. subst old.
  destruct (findOne_rejects e) as [error|] eqn:Hf.
  { destruct (findOne_rejected e (AddItem userId newItem) db error Hf)
      as [Hstatus _].
    simpl in Hstatus. congruence. }
  rewrite (addItem_run e userId newItem db Hf) in *.
  rewrite save_and_answer_run in *.
  destruct (save_rejects e); [discriminate|].
  destruct (stored_cart db userId) as [cart|]; simpl.
  - destruct (findIndex_cases (same_variant (ItemBody.of_item newItem))
                (CartDoc.items cart)) as [Hidx | (i & x & Hidx & Hi & Hx)];
      cbv zeta in *; rewrite Hidx in *.
    + unfold Cart.push, Cart.items, Cart.item_errors in *. simpl in *.
      destruct (Item.quantity newItem) as [[z| |b]|] eqn:Hq;
        try discriminate;
        (rewrite cast_of_item by congruence;
         exists (CartDoc.items cart), [newItem];
         split; [done|]; split; [apply same_but_quantity_all|];
         split; [by right|]; exists newItem;
         split; [|done]; apply elem_of_app; right; apply list_elem_of_here).
    + replace (-1 <? Z.of_nat i) with true in *
        by (symmetry; apply Z.ltb_lt; lia).
      rewrite Nat2Z.id in *. simpl in Hok |- *.
      destruct (assign_quantity_spec i
                  (λ quantity, js_add quantity (or_1 (Item.quantity newItem)))
                  (loaded cart) x Hi) as (_ & _ & Hset & Hrefused).
      cbv beta in Hset, Hrefused.
      destruct (errors (Cart.assign_quantity i _ (loaded cart)))
        as [|err errs] eqn:Herr; [|discriminate].
      destruct Hset as [_ Hitems]; [by intros HNaN%Hrefused|].
      rewrite Hitems. unfold Cart.items. simpl.
      eexists _, []. rewrite app_nil_r.
      split; [done|]. split; [by apply same_but_quantity_insert|].
      split; [by left|].
      eexists. split.
      * eapply list_elem_of_lookup_2. apply list_lookup_insert_eq.
        by eapply lookup_lt_Some.
      * rewrite triple_set_quantity. by apply same_variant_true.
  - unfold Cart.new, Cart.items in *. simpl in *.
    unfold Cart.item_errors in *. simpl in *.
    destruct (Item.quantity newItem) as [[z| |b]|] eqn:Hq;
      try discriminate;
      (rewrite cast_of_item by congruence;
       exists [], [newItem]; split; [done|]; split; [constructor|];
       split; [by right|]; exists newItem;
       split; [apply list_elem_of_here | done]).
Qed.

(** The theorem above for a second variant of product 7. *)
Lemma addItem_keeps_the_cart_witness :
  let e := ok_env 1000 "oid1" in
  let item7M := Item.mk (Some 7) None (Some "M") None None (Some (Int 2)) None in
  let item7L := Item.mk (Some 7) None (Some "L") None None (Some (Int 1)) None in
  let db1 := (addItem e "u1" item7M empty_db).2 in
  ∃ kept added : list Item.t,
    (addItem e "u1" item7L db1).1
      = json (CartBody (Some "Item added to cart") (kept ++ added)) ∧
    Forall2 same_but_quantity [item7M] kept ∧
    (added = [] ∨ added = [item7L]) ∧
    ∃ item : Item.t,
      item ∈ (kept ++ added)%list ∧ Item.triple item = Item.triple item7L.
Proof.
  intros e item7M item7L db1.
  exact (addItem_keeps_the_cart e "u1" item7L db1 eq_refl).
Defined.




(** ** Route parameters that spell an integer *)

(** ** Route parameters that spell an integer *)

Lemma digit_value_pretty (d : N) :
  (d < 10)%N → digit_value 10 (pretty_N_char d) = Some (Z.of_N d).
Proof.
  intros Hd.
  assert (d = 0 ∨ d = 1 ∨ d = 2 ∨ d = 3 ∨ d = 4 ∨ d = 5 ∨ d = 6 ∨ d = 7
          ∨ d = 8 ∨ d = 9)%N as Hcases by lia.
  repeat destruct Hcases as [->|Hcases]; try subst d; reflexivity.
Qed.

Lemma read_digits_pretty_N_go (x : N) (s : string) :
  (0 < x)%N →
  read_digits 10 (pretty_N_go x s) None = read_digits 10 s (Some (Z.of_N x)).
Proof.
  revert s. induction (N.lt_wf_0 x) as [x _ IH]; intros s Hx.
  rewrite pretty_N_go_step by done.
  assert (Hmod : (x `mod` 10 < 10)%N) by (apply N.mod_lt; lia).
  assert (Hx10 : x = (10 * (x `div` 10) + x `mod` 10)%N)
    by (apply N.div_mod; lia).
  destruct (decide (x `div` 10 = 0)%N) as [Hdiv | Hdiv].
  - rewrite Hdiv, pretty_N_go_0. simpl.
    rewrite digit_value_pretty by done. do 2 f_equal. lia.
  - rewrite IH; [|apply N.div_lt; lia | lia]. simpl.
    rewrite digit_value_pretty by done. do 2 f_equal. lia.
Qed.

Lemma pretty_N_go_leading (x : N) (s : string) :
  (0 < x)%N →
  ∃ (d : N) (rest : string),
    (0 < d < 10)%N ∧ pretty_N_go x s = String (pretty_N_char d) rest.
Proof.
  revert s. induction (N.lt_wf_0 x) as [x _ IH]; intros s Hx.
  rewrite pretty_N_go_step by done.
  assert (Hmod : (x `mod` 10 < 10)%N) by (apply N.mod_lt; lia).
  assert (Hx10 : x = (10 * (x `div` 10) + x `mod` 10)%N)
    by (apply N.div_mod; lia).
  destruct (decide (x `div` 10 = 0)%N) as [Hdiv | Hdiv].
  - rewrite Hdiv, pretty_N_go_0. exists (x `mod` 10)%N, s. split; [lia|done].
  - apply IH; [apply N.div_lt; lia | lia].
Qed.

(** [parseInt] on a string that starts with a digit from 1 to 9, with or
    without a minus sign before it: nothing is skipped, the radix is 10. *)
Lemma parseInt_leading_digit (d : N) (rest : string) :
  (0 < d < 10)%N →
  parseInt (String (pretty_N_char d) rest)
    = match read_digits 10 (String (pretty_N_char d) rest) None with
      | Some v => round_double (1 * v)
      | None => NaN
      end ∧
  parseInt (String "-" (String (pretty_N_char d) rest))
    = match read_digits 10 (String (pretty_N_char d) rest) None with
      | Some v => round_double (-1 * v)
      | None => NaN
      end.
Proof.
  intros Hd.
  assert (d = 1 ∨ d = 2 ∨ d = 3 ∨ d = 4 ∨ d = 5 ∨ d = 6 ∨ d = 7
          ∨ d = 8 ∨ d = 9)%N as Hcases by lia.
  repeat destruct Hcases as [->|Hcases]; try subst d;
    destruct rest as [|c2 [|c3 rest]]; split; reflexivity.
Qed.

Lemma parseInt_pretty_N_go (x : N) :
  (0 < x)%N →
  parseInt (pretty_N_go x "") = round_double (Z.of_N x) ∧
  parseInt (String "-" (pretty_N_go x "")) = round_double (- Z.of_N x).
Proof.
  intros Hx.
  pose proof (read_digits_pretty_N_go x "" Hx) as Hread. simpl in Hread.
  destruct (pretty_N_go_leading x "" Hx) as (d & rest & Hd & Hshape).
  rewrite Hshape in *.
  destruct (parseInt_leading_digit d rest Hd) as [-> ->].
  rewrite Hread. split; f_equal; lia.
Qed.

(** The decimal numeral of an integer is parsed to the double nearest to
    it, which is the integer itself up to 2^53. *)
Lemma parseInt_pretty (n : Z) : parseInt (pretty n) = round_double n.
Proof.
  destruct n as [|p|p]; [reflexivity | |].
  - apply (parseInt_pretty_N_go (N.pos p)). lia.
  - destruct (parseInt_pretty_N_go (N.pos p)) as [_ H]; [lia|]. exact H.
Qed.

Lemma id_is_pretty (n : Z) (item : Item.t) :
  Z.abs n ≤ 2 ^ 53 → id_is (pretty n) item ↔ Item.id item = Some n.
Proof.
  intros Hn. unfold id_is. rewrite parseInt_pretty, round_double_safe by done.
  split.
  - by intros (m & [= <-] & Hid).
  - intros Hid. by exists n.
Qed.

(** X14. In a request for a stored cart, an [itemId] that is the decimal
    numeral of an integer [n] of magnitude at most 2^53 selects the line
    items whose [id] is [n] and no other: RemoveItem returns the cart without
    them, and UpdateQuantity is refused with status 404 (item not found)
    exactly when the cart has no such item. *)
Theorem numeral_itemId_selects_id
    (e : Env) (userId : string) (n : Z) (quantity : option num) (db : Db)
    (cart : CartDoc.t) :
  findOne_rejects e = None →
  save_rejects e = None →
  stored_cart db userId = Some cart →
  Z.abs n ≤ 2 ^ 53 →
  (removeItem e userId (pretty n) db).1
    = json (CartBody (Some "Item removed from cart")
              (filter (λ item, Item.id item ≠ Some n) (CartDoc.items cart))) ∧
  ((updateQuantity e userId (pretty n) quantity db).1
     = status_json 404 (FailBody "Item not found in cart" None)
   ↔ ∀ item : Item.t, item ∈ CartDoc.items cart → Item.id item ≠ Some n).
Proof.
  intros Hf Hs Hcart Hn. split.
  - destruct (removeItem_ok e userId (pretty n) db cart Hf Hs Hcart)
      as [Hr _].
    cbv zeta in Hr. rewrite Hr. do 3 f_equal.
    apply list_filter_iff. intros item. by rewrite id_is_pretty.
  - rewrite updateQuantity_run by done. rewrite Hcart. cbv zeta. split.
    + intros Hresp item Hin Hid.
      destruct (findIndex_found (has_id (pretty n)) (CartDoc.items cart)
                  item Hin) as (i & y & Hidx & _);
        [by apply has_id_true, id_is_pretty|].
      rewrite Hidx in Hresp.
      replace (Z.of_nat i =? -1) with false in Hresp
        by (symmetry; apply Z.eqb_neq; lia).
      rewrite save_and_answer_run, Hs in Hresp.
      by destruct (errors _) in Hresp.
    + intros Hnone. rewrite findIndex_absent; [done|].
      intros item Hin. apply has_id_false. rewrite id_is_pretty by done.
      by apply Hnone.
Qed.

(** The theorem above for the numeral of 7 on a cart holding products 7
    and 9. *)
Lemma numeral_itemId_selects_id_witness :
  let e := ok_env 1000 "oid1" in
  let item7 := Item.mk (Some 7) None None None None (Some (Int 2)) None in
  let item9 := Item.mk (Some 9) None None None None (Some (Int 1)) None in
  let db2 := (addItem e "u1" item9 (addItem e "u1" item7 empty_db).2).2 in
  pretty 7%Z = "7" ∧
  (removeItem e "u1" "7" db2).1
    = json (CartBody (Some "Item removed from cart") [item9]).
Proof.
  intros e item7 item9 db2. split; [reflexivity|].
  destruct (numeral_itemId_selects_id e "u1" 7 None db2
              {| CartDoc.userId := "u1"; CartDoc.items := [item7; item9];
                 CartDoc.updatedAt := 1000 |}
              eq_refl eq_refl eq_refl) as [Hr _]; [simpl; lia|].
  exact (eq_trans Hr eq_refl).
Defined.

(** ** A stored item with no quantity *)

(** X17. AddItem for a variant whose first line item in the stored cart has
    no quantity is answered with status 500 and leaves the store as it was:
    the sum of no quantity and a number is [NaN], which the [quantity] path
    refuses, so the save is rejected. *)
Theorem addItem_onto_item_without_quantity
    (e : Env) (userId : string) (newItem : Item.t) (db : Db)
    (cart : CartDoc.t) (i : nat) (item : Item.t) :
  findOne_rejects e = None →
  stored_cart db userId = Some cart →
  CartDoc.items cart !! i = Some item →
  Item.triple item = Item.triple newItem →
  (∀ (j : nat) (y : Item.t),
     (j < i)%nat → CartDoc.items cart !! j = Some y →
     Item.triple y ≠ Item.triple newItem) →
  Item.quantity item = None →
  status (addItem e userId newItem db).1 = 500 ∧
  (addItem e userId newItem db).2 = db.
Proof.
  intros Hf Hcart Hi Htriple Hfirst Hq.
  assert (Hidx : findIndex (same_variant (ItemBody.of_item newItem))
                   (CartDoc.items cart) = Z.of_nat i).
  { destruct (findIndex_found (same_variant (ItemBody.of_item newItem))
                (CartDoc.items cart) item)
      as (j & y & Hj & Hy & Hp & Hlt);
      [by eapply list_elem_of_lookup_2 | by apply same_variant_true |].
    rewrite Hj. f_equal.
    destruct (lt_eq_lt_dec i j) as [[Hlt' | ->] | Hgt]; [| done |].
    - pose proof (Hlt i item Hlt' Hi) as Hfalse.
      apply same_variant_false in Hfalse. contradiction.
    - apply same_variant_true in Hp. by destruct (Hfirst j y Hgt Hy). }
  rewrite addItem_run by done. rewrite Hcart. cbv zeta. rewrite Hidx.
  replace (-1 <? Z.of_nat i) with true by (symmetry; apply Z.ltb_lt; lia).
  rewrite Nat2Z.id.
  destruct (assign_quantity_spec i
              (λ quantity, js_add quantity (or_1 (Item.quantity newItem)))
              (loaded cart) item Hi) as (_ & _ & _ & Hrefused).
  cbv beta in Hrefused. rewrite Hq in Hrefused. specialize (Hrefused eq_refl).
  rewrite save_and_answer_run.
  destruct (save_rejects e); [done|].
  by destruct (errors (Cart.assign_quantity i _ (loaded cart))).
Qed.

(** The theorem above on the cart made by adding product 7 with no
    quantity: adding it again, with quantity 2, is refused. *)
Lemma addItem_onto_item_without_quantity_witness :
  let e := ok_env 1000 "oid1" in
  let shirt (quantity : option num) :=
    Item.mk (Some 7) None (Some "M") (Some "red") None quantity None in
  let db1 := (handle e (AddItem "u1" (shirt None)) empty_db).2 in
  reachable db1 ∧
  status (addItem e "u1" (shirt (Some (Int 2))) db1).1 = 500 ∧
  (addItem e "u1" (shirt (Some (Int 2))) db1).2 = db1.
Proof.
  intros e shirt db1.
  split; [apply reachable_handle, reachable_empty|].
  apply (addItem_onto_item_without_quantity e "u1" (shirt (Some (Int 2))) db1
           {| CartDoc.userId := "u1"; CartDoc.items := [shirt None];
              CartDoc.updatedAt := 1000 |} 0 (shirt None));
    try reflexivity.
  intros j y Hj. lia.
Defined.

(** X18. UpdateQuantity with no [quantity] in the body, for an item the
    stored cart holds, is answered with status 500 and leaves the store as
    it was: [Math.max(1, undefined)] is [NaN], which the [quantity] path
    refuses, so the save is rejected. *)
Theorem updateQuantity_without_quantity
    (e : Env) (userId itemId : string) (db : Db) (cart : CartDoc.t)
    (item : Item.t) :
  findOne_rejects e = None →
  stored_cart db userId = Some cart →
  item ∈ CartDoc.items cart →
  id_is itemId item →
  status (updateQuantity e userId itemId None db).1 = 500 ∧
  (updateQuantity e userId itemId None db).2 = db.
Proof.
  intros Hf Hcart Hin Hid.
  destruct (findIndex_found (has_id itemId) (CartDoc.items cart) item Hin)
    as (i & y & Hidx & Hi & _); [by apply has_id_true|].
  rewrite (updateQuantity_found e userId itemId None db cart i Hf Hcart Hidx).
  destruct (assign_quantity_spec i (λ _, Math_max_1 None) (loaded cart) y Hi)
    as (_ & _ & _ & Hrefused).
  specialize (Hrefused eq_refl).
  rewrite save_and_answer_run.
  destruct (save_rejects e); [done|].
  by destruct (errors (Cart.assign_quantity i _ (loaded cart))).
Qed.

(** The theorem above for product 7 in a cart that holds it. *)
Lemma updateQuantity_without_quantity_witness :
  let e := ok_env 1000 "oid1" in
  let item7 := Item.mk (Some 7) None None None None (Some (Int 2)) None in
  let db1 := (addItem e "u1" item7 empty_db).2 in
  status (updateQuantity e "u1" "7" None db1).1 = 500 ∧
  (updateQuantity e "u1" "7" None db1).2 = db1.
Proof.
  intros e item7 db1.
  apply (updateQuantity_without_quantity e "u1" "7" db1
           {| CartDoc.userId := "u1"; CartDoc.items := [item7];
              CartDoc.updatedAt := 1000 |} item7 eq_refl eq_refl).
  - apply list_elem_of_here.
  - by exists 7.
Defined.
